(** * SavedModel predictors of tensor2robot

    A shallow embedding of [predictors/saved_model_v2_predictor.py]:
    the base predictor [SavedModelPredictorBase] and its two subclasses
    [SavedModelTF2Predictor] (eager execution) and
    [SavedModelTF1Predictor] (graph and session).

    Python methods mutate [self], talk to the TensorFlow runtime and to
    the file system, read the clock and may raise.  They are embedded as
    computations of a small state-and-exception monad over an
    environment made of the predictor object, the outside world and the
    log of what the method asked of the outside. *)

From Stdlib Require Import ZArith QArith List String Ascii Lia.
From stdpp Require Import gmap strings list fin_maps.

Close Scope Q_scope.
Open Scope Z_scope.
Open Scope string_scope.

(** ** Path names: [os.path] on a POSIX host *)

Module posixpath.

Definition sep : ascii := "/"%char.

Definition startswith_sep (s : string) : bool :=
  match s with
  | String c _ => Ascii.eqb c sep
  | EmptyString => false
  end.

Fixpoint endswith_sep (s : string) : bool :=
  match s with
  | EmptyString => false
  | String c EmptyString => Ascii.eqb c sep
  | String _ r => endswith_sep r
  end.

(** [str.rfind(sep)], scanning left to right and remembering the last
    hit; [-1] when there is none. *)
Fixpoint rfind_from (s : string) (i last : Z) : Z :=
  match s with
  | EmptyString => last
  | String c r => rfind_from r (i + 1) (if Ascii.eqb c sep then i else last)
  end.

Definition rfind (s : string) : Z := rfind_from s 0 (-1).

(** The slice [p[i:]] for [0 <= i]. *)
Fixpoint slice_from (n : nat) (s : string) : string :=
  match n, s with
  | O, _ => s
  | S n', String _ r => slice_from n' r
  | S _, EmptyString => EmptyString
  end.

(** [basename(p)]: [i = p.rfind(sep) + 1; return p[i:]]. *)
Definition basename (p : string) : string :=
  let i := rfind p + 1 in
  slice_from (Z.to_nat i) p.

(** One round of the loop of [join(a, *p)]. *)
Definition join_step (path b : string) : string :=
  if startswith_sep b then b
  else if (String.eqb path "" || endswith_sep path)%bool then path ++ b
  else path ++ String sep b.

Definition join (a : string) (p : list string) : string :=
  fold_left join_step p a.

End posixpath.

(** ** The builtin [int(str)], base ten

    CPython skips white space around the number, takes one optional
    sign, and then wants decimal digits in which single underscores may
    separate digits.

    This is [int] on ASCII strings.  Outside ASCII, [int] also takes
    the other decimal digits and white space of Unicode, which a string
    of bytes does not tell apart; and from CPython 3.11 on it refuses
    a string of more than 4300 digits.  The properties of
    [model_version] below are therefore stated for ASCII names of at
    most [MAX_STR_DIGITS] digits, where every CPython agrees with this
    definition. *)

Module pyint.

Definition is_space (c : ascii) : bool :=
  let n := N_of_ascii c in
  ((9 <=? n) && (n <=? 13) || (n =? 32))%N%bool.

Definition is_digit (c : ascii) : bool :=
  let n := N_of_ascii c in
  ((48 <=? n) && (n <=? 57))%N%bool.

Definition digit_value (c : ascii) : Z :=
  Z.of_N (N_of_ascii c) - 48.

Fixpoint lstrip (s : string) : string :=
  match s with
  | String c r => if is_space c then lstrip r else s
  | EmptyString => EmptyString
  end.

Fixpoint all_space (s : string) : bool :=
  match s with
  | String c r => (is_space c && all_space r)%bool
  | EmptyString => true
  end.

(** The digits of the number.  [prev] tells that the character just
    read was a digit: only then may an underscore follow or the number
    end.  What comes after the number must be white space. *)
Fixpoint digits (s : string) (acc : Z) (prev : bool) : option Z :=
  match s with
  | EmptyString => if prev then Some acc else None
  | String c r =>
      if is_digit c then digits r (10 * acc + digit_value c) true
      else if Ascii.eqb c "_"%char then
        (if prev then digits r acc false else None)
      else if (prev && all_space s)%bool then Some acc
      else None
  end.

Definition int (s : string) : option Z :=
  match lstrip s with
  | String c r =>
      if Ascii.eqb c "-"%char then Z.opp <$> digits r 0 false
      else if Ascii.eqb c "+"%char then digits r 0 false
      else digits (String c r) 0 false
  | EmptyString => None
  end.

End pyint.

(** ** Values

    A dimension is a size or unknown ([None] in a TensorFlow shape).  A
    tensor is what the predictor can see of a numpy array or of a
    placeholder: its shape, and a payload the predictor never opens. *)

Definition Dim : Type := option N.

Record Tensor (P : Type) : Type := mkTensor {
  shape : list Dim;
  payload : P
}.
Arguments mkTensor {P} _ _.
Arguments shape {P} _.
Arguments payload {P} _.

(** One entry of a specification: [spec.shape.as_list()] and the name
    of the dtype. *)
Record TensorSpec : Type := mkTensorSpec {
  spec_shape : list Dim;
  spec_dtype : string
}.

Inductive Exception : Type :=
| ValueError (msg : string)
| AttributeError (msg : string)
| TypeError (msg : string)
| RuntimeFailure (msg : string).

(** What a call into the runtime gives back. *)
Inductive Answer (A : Type) : Type :=
| Gives (a : A)
| Throws (e : Exception).
Arguments Gives {A} _.
Arguments Throws {A} _.

(** ** The collaborators

    TensorFlow, [tensorspec_utils] and the export on disk are outside
    the file under study.  A [Runtime] fixes their types and what each
    of their entry points answers; every entry point may read and change
    a state of its own, [RtState], and may raise. *)

Class Runtime : Type := {
  Payload : Type;
  RTensor : Type;       (* a tensor as the runtime returns it *)
  Model : Type;         (* what [tf.saved_model.load] returns *)
  Proto : Type;         (* a serialized specification *)
  FeedDict : Type;
  Session : Type;
  Graph : Type;
  ConfigProto : Type;
  TfVariable : Type;
  Operation : Type;
  RtState : Type;

rshape : RTensor -> list Dim;
  numpy : RTensor -> Tensor Payload;

load_t2r_assets_to_file :
  string -> RtState -> Answer (Proto * Proto) * RtState;
  from_proto : Proto -> RtState -> Answer (gmap string TensorSpec) * RtState;
  saved_model_load : string -> RtState -> Answer Model * RtState;
  model_predict :
  Model -> gmap string (Tensor Payload) -> RtState ->
  Answer (gmap string RTensor) * RtState;
  model_global_step : Model -> RtState -> Answer RTensor * RtState;
  call_value : RTensor -> RtState -> Answer RTensor * RtState;

new_graph : RtState -> Answer Graph * RtState;
  new_session : Graph -> option ConfigProto -> RtState -> Answer Session * RtState;
  make_placeholders :
  option (gmap string TensorSpec) -> RtState ->
  Answer (gmap string (Tensor Payload)) * RtState;
  map_feed_dict :
  option (gmap string (Tensor Payload)) -> gmap string (Tensor Payload) ->
  RtState -> Answer FeedDict * RtState;
  session_run_fetches :
  Session -> option (gmap string RTensor) -> FeedDict -> RtState ->
  Answer (gmap string (Tensor Payload)) * RtState;
  session_run_tensor : Session -> RTensor -> RtState -> Answer (Tensor Payload) * RtState;
  session_run_op : Session -> Operation -> RtState -> Answer unit * RtState;
  global_variables : RtState -> Answer (list TfVariable) * RtState;
  local_variables : RtState -> Answer (list TfVariable) * RtState;
  variables_initializer : list TfVariable -> RtState -> Answer Operation * RtState
}.

(** ** The outside world and the effect monad

    Times, in seconds, are rationals: the code only subtracts two clock
    readings and compares the difference with the timeout. *)

Definition Qltb (a b : Q) : bool := negb (Qle_bool b a).

(** A call returns, raises, or is cut off by the bound put on the
    polling loop. *)
Inductive Outcome (A : Type) : Type :=
| Returns (a : A)
| Raises (e : Exception)
| Unfinished.
Arguments Returns {A} _.
Arguments Raises {A} _.
Arguments Unfinished {A}.

Section Effects.
Context `{RT : Runtime}.

(** The clock and the file system are oracles: [clock k] is what the
    [k]-th call of [time.time()] returns, [gfile k path] what the
    [k]-th call of [tf.io.gfile.exists] answers for [path].  How much
    time a statement or a sleep takes is up to the clock. *)
Record World : Type := mkWorld {
  clock : nat -> Q;
  clock_reads : nat;
  gfile : nat -> string -> bool;
  gfile_queries : nat;
  runtime : RtState
}.

(** What a method asked of the outside, most recent first. *)
Inductive Event : Type :=
| GfileExists (path : string) (found : bool)
| LoggingInfo (fmt arg : string)
| LoggingWarning (fmt : string) (arg : Q)
| TimeSleep (secs : Q)
| ModelPredict (m : Model) (features : gmap string (Tensor Payload))
| MapFeedDict (placeholders : option (gmap string (Tensor Payload)))
              (features : gmap string (Tensor Payload))
| Called (entry : string).

Record Env (S : Type) : Type := mkEnv {
  self : S;
  world : World;
  log : list Event
}.
Arguments mkEnv {S} _ _ _.
Arguments self {S} _.
Arguments world {S} _.
Arguments log {S} _.

Definition M (S A : Type) : Type := Env S -> Outcome A * Env S.

Definition ret {S A} (a : A) : M S A := fun e => (Returns a, e).

Definition bind {S A B} (m : M S A) (k : A -> M S B) : M S B :=
  fun e =>
    match m e with
    | (Returns a, e') => k a e'
    | (Raises x, e') => (Raises x, e')
    | (Unfinished, e') => (Unfinished, e')
    end.

Definition raise {S A} (x : Exception) : M S A := fun e => (Raises x, e).

Definition unfinished {S A} : M S A := fun e => (Unfinished, e).

Definition get_self {S} : M S S := fun e => (Returns (self e), e).

Definition set_self {S} (f : S -> S) : M S unit :=
  fun e => (Returns tt, mkEnv (f (self e)) (world e) (log e)).

Definition emit {S} (ev : Event) : M S unit :=
  fun e => (Returns tt, mkEnv (self e) (world e) (ev :: log e)).

(** A call of an entry point of the runtime: logged, then answered. *)
Definition call {S A} (ev : Event) (f : RtState -> Answer A * RtState) : M S A :=
  fun e =>
    let w := world e in
    let (ans, rt') := f (runtime w) in
    let e' := mkEnv (self e)
                    (mkWorld (clock w) (clock_reads w) (gfile w) (gfile_queries w) rt')
                    (ev :: log e) in
    match ans with
    | Gives a => (Returns a, e')
    | Throws x => (Raises x, e')
    end.

(** [time.time()] *)
Definition time_time {S} : M S Q :=
  fun e =>
    let w := world e in
    (Returns (clock w (clock_reads w)),
     mkEnv (self e)
           (mkWorld (clock w) (Datatypes.S (clock_reads w)) (gfile w) (gfile_queries w)
                    (runtime w))
           (log e)).

(** [tf.io.gfile.exists(path)] *)
Definition gfile_exists {S} (path : string) : M S bool :=
  fun e =>
    let w := world e in
    let found := gfile w (gfile_queries w) path in
    (Returns found,
     mkEnv (self e)
           (mkWorld (clock w) (clock_reads w) (gfile w) (Datatypes.S (gfile_queries w))
                    (runtime w))
           (GfileExists path found :: log e)).

Definition logging_info {S} (fmt arg : string) : M S unit :=
  emit (LoggingInfo fmt arg).

Definition logging_warning {S} (fmt : string) (arg : Q) : M S unit :=
  emit (LoggingWarning fmt arg).

Definition time_sleep {S} (secs : Q) : M S unit := emit (TimeSleep secs).

End Effects.

Arguments mkEnv {RT S} _ _ _.
Arguments self {RT S} _.
Arguments world {RT S} _.
Arguments log {RT S} _.

Declare Scope py_scope.
Delimit Scope py_scope with py.
Notation "'let*' x ':=' c 'in' k" := (bind c (fun x => k))
  (at level 10, x name, c at level 100, k at level 200, only parsing) : py_scope.
Notation "c ';;' k" := (bind c (fun _ => k))
  (at level 100, k at level 200, right associativity, only parsing) : py_scope.
Open Scope py_scope.

(** ** Names the module takes from elsewhere *)

Module tensorspec_utils.
(** Modelled from the spec: the two constants of [tensorspec_utils]
    that name the marker file, [assets.extra/t2r_assets.pbtxt] under
    the saved-model path. *)
Definition EXTRA_ASSETS_DIRECTORY : string := "assets.extra".
Definition T2R_ASSETS_FILENAME : string := "t2r_assets.pbtxt".
End tensorspec_utils.

Definition _BUSY_WAITING_SLEEP_TIME_IN_SECS : Q := 10%Q.

(** ** [class SavedModelPredictorBase] *)

Module SavedModelPredictorBase.
Section Class_.
Context `{RT : Runtime}.

(** The instance attributes [__init__] creates. *)
Record Predictor : Type := mkPredictor {
  _saved_model_path : string;
  _timeout : Q;
  _model : option Model;
  _feature_spec : option (gmap string TensorSpec);
  _label_spec : option (gmap string TensorSpec)
}.

Definition __init__ (saved_model_path : string) (timeout : Q) : Predictor :=
  mkPredictor saved_model_path timeout None None None.

Definition set_model (m : Model) (p : Predictor) : Predictor :=
  mkPredictor (_saved_model_path p) (_timeout p) (Some m)
          (_feature_spec p) (_label_spec p).

Definition set_feature_spec (s : gmap string TensorSpec) (p : Predictor) : Predictor :=
  mkPredictor (_saved_model_path p) (_timeout p) (_model p) (Some s) (_label_spec p).

Definition set_label_spec (s : gmap string TensorSpec) (p : Predictor) : Predictor :=
  mkPredictor (_saved_model_path p) (_timeout p) (_model p) (_feature_spec p) (Some s).

(** The methods run on any object that has the base attributes. *)
Section Methods.
Context {S : Type} (base : S -> Predictor) (with_base : Predictor -> S -> S).

Definition attr {A} (f : Predictor -> A) : M S A :=
  let* o := get_self in ret (f (base o)).

Definition assign (f : Predictor -> Predictor) : M S unit :=
  set_self (fun o => with_base (f (base o)) o).

(** No [__init__] of the file creates an attribute [_saved_model_dir]
    (the path is kept in [_saved_model_path]), so the lookup
    [self._saved_model_dir] raises. *)
Definition attr_saved_model_dir : M S string :=
  raise (AttributeError "object has no attribute '_saved_model_dir'").

Definition assert_is_loaded : M S unit :=
  let* m := attr _model in
  match m with
  | None => raise (ValueError "The predictor has not yet been successfully restored.")
  | Some _ => ret tt
  end.

Definition get_feature_specification : M S (option (gmap string TensorSpec)) :=
  assert_is_loaded ;;
  attr _feature_spec.

Definition get_label_specification : M S (option (gmap string TensorSpec)) :=
  assert_is_loaded ;;
  attr _label_spec.

(** [np.expand_dims(f, 0)] *)
Definition expand_dims (f : Tensor Payload) : Tensor Payload :=
  mkTensor (Some 1%N :: shape f) (payload f).

Definition _maybe_expand_dims (f : Tensor Payload) (spec : TensorSpec) : Tensor Payload :=
  if bool_decide (shape f = spec_shape spec) then expand_dims f else f.

(** [tf.nest.map_structure(func, features, spec)] on two mappings:
    they must have the same keys. *)
Definition map_structure (func : Tensor Payload -> TensorSpec -> Tensor Payload)
    (features : gmap string (Tensor Payload))
    (spec : option (gmap string TensorSpec)) : M S (gmap string (Tensor Payload)) :=
  match spec with
  | None => raise (ValueError "The two structures don't have the same nested structure.")
  | Some sp =>
      if bool_decide (dom features = dom sp)
      then ret (map_zip_with func features sp)
      else raise (ValueError "The two structures don't have the same nested structure.")
  end.

Definition predict (features : gmap string (Tensor Payload)) : M S (gmap string RTensor) :=
  assert_is_loaded ;;
  let* spec := get_feature_specification in
  let* expanded_features := map_structure _maybe_expand_dims features spec in
  let* m := attr _model in
  match m with
  | Some model => call (ModelPredict model expanded_features)
                       (model_predict model expanded_features)
  | None => raise (AttributeError "'NoneType' object has no attribute 'predict'")
  end.

(** The [while ... else] of [restore]: [true] when the loop was left
    by [break], [false] when its condition failed and the [else]
    branch is to run.  [fuel] bounds the number of rounds. *)
Fixpoint wait_for_assets (fuel : nat) (t2r_assets_filename : string)
    (start_time : Q) : M S bool :=
  match fuel with
  | O => unfinished
  | Datatypes.S fuel' =>
      let* now := time_time in
      let* timeout := attr _timeout in
      if Qltb (now - start_time)%Q timeout then
        let* found := gfile_exists t2r_assets_filename in
        if found then ret true
        else
          let* dir := attr_saved_model_dir in
          logging_info "Waiting for a saved model to become available at %s." dir ;;
          time_sleep _BUSY_WAITING_SLEEP_TIME_IN_SECS ;;
          wait_for_assets fuel' t2r_assets_filename start_time
      else ret false
  end.

Definition restore (fuel : nat) : M S bool :=
  let* path := attr _saved_model_path in
  let t2r_assets_dir :=
    posixpath.join path [tensorspec_utils.EXTRA_ASSETS_DIRECTORY] in
  let t2r_assets_filename :=
    posixpath.join t2r_assets_dir [tensorspec_utils.T2R_ASSETS_FILENAME] in
  let* start_time := time_time in
  let* found := wait_for_assets fuel t2r_assets_filename start_time in
  if negb found then
    let* timeout := attr _timeout in
    logging_warning "No saved_model found after %s seconds." timeout ;;
    ret false
  else
    let* path := attr _saved_model_path in
    let t2r_assets_file_path :=
      posixpath.join path [tensorspec_utils.EXTRA_ASSETS_DIRECTORY;
                           tensorspec_utils.T2R_ASSETS_FILENAME] in
    let* t2r_assets :=
      call (Called "tensorspec_utils.load_t2r_assets_to_file")
           (load_t2r_assets_to_file t2r_assets_file_path) in
    let* fs := call (Called "TensorSpecStruct.from_proto")
                    (from_proto (fst t2r_assets)) in
    assign (set_feature_spec fs) ;;
    let* ls := call (Called "TensorSpecStruct.from_proto")
                    (from_proto (snd t2r_assets)) in
    assign (set_label_spec ls) ;;
    let* path := attr _saved_model_path in
    let* m := call (Called "tf.saved_model.load") (saved_model_load path) in
    assign (set_model m) ;;
    ret true.

Definition init_randomly : M S unit :=
  raise (ValueError "Random initialization is not supported for SavedModelPredictor.").

Definition close : M S unit :=
  assert_is_loaded.

Definition model_version : M S Z :=
  assert_is_loaded ;;
  let* path := attr _saved_model_path in
  match pyint.int (posixpath.basename path) with
  | Some v => ret v
  | None => raise (ValueError "invalid literal for int() with base 10")
  end.

Definition global_step : M S RTensor :=
  assert_is_loaded ;;
  let* m := attr _model in
  match m with
  | Some model => call (Called "model.global_step") (model_global_step model)
  | None => raise (AttributeError "'NoneType' object has no attribute 'global_step'")
  end.

Definition model_path : M S string :=
  assert_is_loaded ;;
  attr _saved_model_path.

End Methods.
End Class_.
End SavedModelPredictorBase.


(** ** [class SavedModelTF2Predictor(SavedModelPredictorBase)]

    The eager-mode predictor adds no attribute; it overrides [predict]
    and [global_step] and inherits the rest. *)

Module SavedModelTF2Predictor.
Section Class_.
Context `{RT : Runtime}.

Definition Predictor : Type := SavedModelPredictorBase.Predictor.

Definition base (o : Predictor) : SavedModelPredictorBase.Predictor := o.

Definition with_base (p : SavedModelPredictorBase.Predictor) (_ : Predictor) : Predictor := p.

Definition __init__ (saved_model_path : string) (timeout : Q) : Predictor :=
  SavedModelPredictorBase.__init__ saved_model_path timeout.

Definition assert_is_loaded : M Predictor unit :=
  SavedModelPredictorBase.assert_is_loaded base.

Definition predict (features : gmap string (Tensor Payload))
    : M Predictor (gmap string (Tensor Payload)) :=
  let* predictions := SavedModelPredictorBase.predict base features in
  ret (numpy <$> predictions).

Definition global_step : M Predictor (Tensor Payload) :=
  assert_is_loaded ;;
  let* m := SavedModelPredictorBase.attr base SavedModelPredictorBase._model in
  match m with
  | Some model =>
      let* step := call (Called "model.global_step") (model_global_step model) in
      ret (numpy step)
  | None => raise (AttributeError "'NoneType' object has no attribute 'global_step'")
  end.

Definition get_feature_specification := SavedModelPredictorBase.get_feature_specification base.
Definition get_label_specification := SavedModelPredictorBase.get_label_specification base.
Definition restore := SavedModelPredictorBase.restore base with_base.
Definition init_randomly := SavedModelPredictorBase.init_randomly (S := Predictor).
Definition close := SavedModelPredictorBase.close base.
Definition model_version := SavedModelPredictorBase.model_version base.
Definition model_path := SavedModelPredictorBase.model_path base.

End Class_.
End SavedModelTF2Predictor.

(** ** [class SavedModelTF1Predictor(SavedModelPredictorBase)]

    The graph-mode predictor owns a graph and a session, and keeps the
    placeholders and the prediction tensors it builds in [restore]. *)

Module SavedModelTF1Predictor.
Section Class_.
Context `{RT : Runtime}.

Record Predictor : Type := mkPredictor {
  base : SavedModelPredictorBase.Predictor;
  _tf_config : option ConfigProto;
  _graph : Graph;
  _session : Session;
  _predictions : option (gmap string RTensor);
  _features : option (gmap string (Tensor Payload))
}.

Definition with_base (p : SavedModelPredictorBase.Predictor) (o : Predictor) : Predictor :=
  mkPredictor p (_tf_config o) (_graph o) (_session o) (_predictions o) (_features o).

Definition set_predictions (v : gmap string RTensor) (o : Predictor) : Predictor :=
  mkPredictor (base o) (_tf_config o) (_graph o) (_session o) (Some v) (_features o).

Definition set_features (v : gmap string (Tensor Payload)) (o : Predictor) : Predictor :=
  mkPredictor (base o) (_tf_config o) (_graph o) (_session o) (_predictions o) (Some v).

(** The constructor asks the runtime for a graph and for a session on
    that graph. *)
Definition __init__ (saved_model_path : string) (timeout : Q)
    (tf_config : option ConfigProto) (rt : RtState) : Answer Predictor * RtState :=
  match new_graph rt with
  | (Throws x, rt1) => (Throws x, rt1)
  | (Gives g, rt1) =>
      match new_session g tf_config rt1 with
      | (Throws x, rt2) => (Throws x, rt2)
      | (Gives s, rt2) =>
          (Gives (mkPredictor (SavedModelPredictorBase.__init__ saved_model_path timeout)
                              tf_config g s None None), rt2)
      end
  end.

(** [with self._session.as_default(), self._graph.as_default(): body]:
    both are entered, and left again however the body ends. *)
Definition with_default_session_and_graph {A} (body : M Predictor A) : M Predictor A :=
  fun e =>
    match (emit (Called "session.as_default.__enter__") ;;
           emit (Called "graph.as_default.__enter__")) e with
    | (_, e1) =>
        let (o, e2) := body e1 in
        match (emit (Called "graph.as_default.__exit__") ;;
               emit (Called "session.as_default.__exit__")) e2 with
        | (_, e3) => (o, e3)
        end
    end.

Definition assert_is_loaded : M Predictor unit :=
  SavedModelPredictorBase.assert_is_loaded base.

Definition predict (features : gmap string (Tensor Payload))
    : M Predictor (gmap string (Tensor Payload)) :=
  assert_is_loaded ;;
  with_default_session_and_graph (
    let* o := get_self in
    let* feed := call (MapFeedDict (_features o) features)
                      (map_feed_dict (_features o) features) in
    call (Called "session.run") (session_run_fetches (_session o) (_predictions o) feed)).

(** [restore] gives back [False] when the base class does and falls off
    its end otherwise: the result is then Python's [None], here [None];
    [Some b] stands for the boolean [b]. *)
Definition restore (fuel : nat) : M Predictor (option bool) :=
  with_default_session_and_graph (
    let* restored := SavedModelPredictorBase.restore base with_base fuel in
    if negb restored then ret (Some false)
    else
      let* spec := SavedModelPredictorBase.attr base SavedModelPredictorBase._feature_spec in
      let* placeholders := call (Called "tensorspec_utils.make_placeholders")
                                (make_placeholders spec) in
      set_self (set_features placeholders) ;;
      (* [self._features] was assigned on the line before *)
      let* predictions := SavedModelPredictorBase.predict base placeholders in
      set_self (set_predictions predictions) ;;
      let* gv := call (Called "tf.compat.v1.global_variables") global_variables in
      let* lv := call (Called "tf.compat.v1.local_variables") local_variables in
      let* init := call (Called "tf.compat.v1.variables_initializer")
                        (variables_initializer (gv ++ lv)) in
      let* o := get_self in
      call (Called "session.run") (session_run_op (_session o) init) ;;
      ret None).

Definition global_step : M Predictor (Tensor Payload) :=
  assert_is_loaded ;;
  let* o := get_self in
  let* step := SavedModelPredictorBase.global_step base in
  let* called := call (Called "__call__") (call_value step) in
  call (Called "session.run") (session_run_tensor (_session o) called).

Definition get_feature_specification := SavedModelPredictorBase.get_feature_specification base.
Definition get_label_specification := SavedModelPredictorBase.get_label_specification base.
Definition init_randomly := SavedModelPredictorBase.init_randomly (S := Predictor).
Definition close := SavedModelPredictorBase.close base.
Definition model_version := SavedModelPredictorBase.model_version base.
Definition model_path := SavedModelPredictorBase.model_path base.

End Class_.
End SavedModelTF1Predictor.


(** ** A runtime to run the predictors on

    A small runtime used for examples: the export declares one feature
    [x] of shape [[3]], the model echoes its input, a session run gives
    back what it is fed. *)

Module echo.

Definition feature_spec : gmap string TensorSpec :=
  {[ "x" := mkTensorSpec [Some 3%N] "float32" ]}.

Definition label_spec : gmap string TensorSpec :=
  {[ "y" := mkTensorSpec [Some 1%N] "float32" ]}.

Definition placeholder (s : TensorSpec) : Tensor (list Z) :=
  mkTensor (None :: spec_shape s) [].

Definition runtime : Runtime := {|
  Payload := list Z;
  RTensor := Tensor (list Z);
  Model := string;
  Proto := gmap string TensorSpec;
  FeedDict := gmap string (Tensor (list Z));
  Session := unit;
  Graph := unit;
  ConfigProto := unit;
  TfVariable := string;
  Operation := list string;
  RtState := unit;
  rshape := shape;
  numpy := fun t => t;
  load_t2r_assets_to_file := fun _ rt => (Gives (feature_spec, label_spec), rt);
  from_proto := fun p rt => (Gives p, rt);
  saved_model_load := fun path rt => (Gives path, rt);
  model_predict := fun _ features rt => (Gives features, rt);
  model_global_step := fun _ rt => (Gives (mkTensor [] [0]), rt);
  call_value := fun _ rt => (Throws (TypeError "object is not callable"), rt);
  new_graph := fun rt => (Gives tt, rt);
  new_session := fun _ _ rt => (Gives tt, rt);
  make_placeholders := fun spec rt =>
    match spec with
    | Some sp => (Gives (placeholder <$> sp), rt)
    | None => (Throws (TypeError "no specification"), rt)
    end;
  map_feed_dict := fun _ features rt => (Gives features, rt);
  session_run_fetches := fun _ _ feed rt => (Gives feed, rt);
  session_run_tensor := fun _ t rt => (Gives t, rt);
  session_run_op := fun _ _ rt => (Gives tt, rt);
  global_variables := fun rt => (Gives [], rt);
  local_variables := fun rt => (Gives [], rt);
  variables_initializer := fun vs rt => (Gives vs, rt)
|}.

(** A clock that advances one second per reading. *)
Definition ticking (k : nat) : Q := inject_Z (Z.of_nat k).

Definition never (_ : nat) (_ : string) : bool := false.
Definition always (_ : nat) (_ : string) : bool := true.

Definition world_without_marker : World (RT := runtime) :=
  mkWorld (RT := runtime) ticking 0 never 0 tt.

Definition world_with_marker : World (RT := runtime) :=
  mkWorld (RT := runtime) ticking 0 always 0 tt.

Definition path : string := "/tmp/export/1589".

Definition fresh : SavedModelPredictorBase.Predictor (RT := runtime) :=
  SavedModelPredictorBase.__init__ (RT := runtime) path 600%Q.

Definition loaded : SavedModelPredictorBase.Predictor (RT := runtime) :=
  SavedModelPredictorBase.mkPredictor (RT := runtime)
    path 600%Q (Some path) (Some feature_spec) (Some label_spec).

Definition graph_mode (p : SavedModelPredictorBase.Predictor (RT := runtime))
    : SavedModelTF1Predictor.Predictor (RT := runtime) :=
  SavedModelTF1Predictor.mkPredictor (RT := runtime) p None tt tt None None.

Definition graph_mode_loaded : SavedModelTF1Predictor.Predictor (RT := runtime) :=
  SavedModelTF1Predictor.mkPredictor (RT := runtime) loaded None tt tt
    (Some (placeholder <$> feature_spec)) (Some (placeholder <$> feature_spec)).

(** One example without its batch dimension. *)
Definition unbatched : gmap string (Tensor (list Z)) :=
  {[ "x" := mkTensor [Some 3%N] [1; 2; 3] ]}.

(** A batch of two examples. *)
Definition batched : gmap string (Tensor (list Z)) :=
  {[ "x" := mkTensor [Some 2%N; Some 3%N] [1; 2; 3; 4; 5; 6] ]}.

(** A predictor built with a timeout of zero seconds. *)
Definition impatient : SavedModelPredictorBase.Predictor (RT := runtime) :=
  SavedModelPredictorBase.__init__ (RT := runtime) path 0%Q.

(** Environments with an empty log. *)
Definition start {S} (o : S) (w : World (RT := runtime)) : Env (RT := runtime) S :=
  mkEnv (RT := runtime) o w [].

End echo.

(** ** What the claims speak of *)

(** The call raised the error of [assert_is_loaded] and left the
    predictor, the world and the log as they were. *)
Definition fails_unrestored `{RT : Runtime} {S A} (m : M S A) (e : Env S) : Prop :=
  m e = (Raises (ValueError "The predictor has not yet been successfully restored."), e).

(** The feature mappings a call handed to the runtime, read off its log. *)
Fixpoint handed_over `{RT : Runtime} (l : list Event) : list (gmap string (Tensor Payload)) :=
  match l with
  | ModelPredict _ features :: r => features :: handed_over r
  | MapFeedDict _ features :: r => features :: handed_over r
  | _ :: r => handed_over r
  | [] => []
  end.

(** A [predict] expands a feature that lacks its batch dimension: on a
    loaded predictor, a feature whose shape is the shape of its
    specification reaches the runtime with a leading dimension 1. *)
Definition expands_before_delegating `{RT : Runtime} {S A}
    (base : S -> SavedModelPredictorBase.Predictor)
    (predict : gmap string (Tensor Payload) -> M S A) : Prop :=
  forall (e : Env S) features spec k f s,
    SavedModelPredictorBase._model (base (self e)) <> None ->
    SavedModelPredictorBase._feature_spec (base (self e)) = Some spec ->
    dom features = dom spec ->
    features !! k = Some f ->
    spec !! k = Some s ->
    shape f = spec_shape s ->
    log e = [] ->
    handed_over (log (snd (predict features e))) <> [] /\
    forall handed, In handed (handed_over (log (snd (predict features e)))) ->
      shape <$> handed !! k = Some (Some 1%N :: shape f).

(** The runtime keeps the batch: when every input of a prediction has
    the leading dimension [d], so has every output. *)
Definition batch_preserving (RT : Runtime) : Prop :=
  forall m (features : gmap string (Tensor Payload)) rt out rt' d,
    model_predict m features rt = (Gives out, rt') ->
    (forall k f, features !! k = Some f -> head (shape f) = Some d) ->
    forall j o, out !! j = Some o -> head (rshape o) = Some d.

(** The numpy conversion keeps the shape of a tensor. *)
Definition numpy_keeps_shape (RT : Runtime) : Prop :=
  forall t : RTensor, shape (numpy t) = rshape t.

(** The environment after one reading of the clock, after one query of
    the file system, and after one more entry in the log. *)
Definition read_clock `{RT : Runtime} {S} (e : Env S) : Env S := snd (time_time e).

Definition asked `{RT : Runtime} {S} (path : string) (e : Env S) : Env S :=
  snd (gfile_exists path e).

Definition logged `{RT : Runtime} {S} (ev : Event) (e : Env S) : Env S :=
  snd (emit ev e).

(** The marker file [restore] polls for. *)
Definition marker_file `{RT : Runtime} (p : SavedModelPredictorBase.Predictor) : string :=
  posixpath.join
    (posixpath.join (SavedModelPredictorBase._saved_model_path p)
                    [tensorspec_utils.EXTRA_ASSETS_DIRECTORY])
    [tensorspec_utils.T2R_ASSETS_FILENAME].

(** The time between the two readings of the clock [restore] starts
    with: the one kept in [start_time] and the one of the first test of
    the loop. *)
Definition first_elapsed `{RT : Runtime} {S} (e : Env S) : Q :=
  let w := world e in
  (clock w (Datatypes.S (clock_reads w)) - clock w (clock_reads w))%Q.

(** What the first query for the marker file answers. *)
Definition marker_at_first_poll `{RT : Runtime} {S}
    (base : S -> SavedModelPredictorBase.Predictor) (e : Env S) : bool :=
  gfile (world e) (gfile_queries (world e)) (marker_file (base (self e))).

(** Computations that assign to no attribute of [self]. *)
Definition keeps_self `{RT : Runtime} {S A} (m : M S A) : Prop :=
  forall e o e', m e = (o, e') -> self e' = self e.

(** The number of queries for a file a log records. *)
Fixpoint polls `{RT : Runtime} (l : list Event) : nat :=
  match l with
  | GfileExists _ _ :: r => Datatypes.S (polls r)
  | _ :: r => polls r
  | [] => O
  end.

(** The environment inside and after
    [with self._session.as_default(), self._graph.as_default()]. *)
Definition entered `{RT : Runtime} {S} (e : Env S) : Env S :=
  logged (Called "graph.as_default.__enter__")
         (logged (Called "session.as_default.__enter__") e).

Definition left `{RT : Runtime} {S} (e : Env S) : Env S :=
  logged (Called "session.as_default.__exit__")
         (logged (Called "graph.as_default.__exit__") e).

(** ** Path components, following the words of the specification *)

Module pathspec.



Fixpoint all_digits (s : string) : bool :=
  match s with
  | EmptyString => true
  | String c r => (pyint.is_digit c && all_digits r)%bool
  end.

(** The number a string of decimal digits writes, most significant
    digit first. *)
Fixpoint decimal (acc : Z) (s : string) : Z :=
  match s with
  | EmptyString => acc
  | String c r => decimal (10 * acc + pyint.digit_value c) r
  end.

End pathspec.

(** ** Further notions used by the properties of the code *)

(** How many entries of a log satisfy [p]. *)
Fixpoint count_events `{RT : Runtime} (p : Event -> bool) (l : list Event) : nat :=
  match l with
  | ev :: r => ((if p ev then 1 else 0) + count_events p r)%nat
  | [] => 0%nat
  end.

Definition is_poll `{RT : Runtime} (ev : Event) : bool :=
  match ev with GfileExists _ _ => true | _ => false end.

(** The two things a round of waiting does: the message and the sleep. *)
Definition is_wait `{RT : Runtime} (ev : Event) : bool :=
  match ev with LoggingInfo _ _ | TimeSleep _ => true | _ => false end.

Definition is_model_predict `{RT : Runtime} (ev : Event) : bool :=
  match ev with ModelPredict _ _ => true | _ => false end.

(** A computation adds at most [n] entries satisfying [p] to the log. *)
Definition adds_at_most `{RT : Runtime} {S A} (p : Event -> bool) (n : nat)
    (m : M S A) : Prop :=
  forall e o e', m e = (o, e') ->
    (count_events p (log e') <= count_events p (log e) + n)%nat.

(** A computation leaves one view of [self] as it was. *)
Definition keeps `{RT : Runtime} {S A X} (view : S -> X) (m : M S A) : Prop :=
  forall e o e', m e = (o, e') -> view (self e') = view (self e).

(** The same, for every outcome but the return of [true]. *)
Definition keeps_unless_true `{RT : Runtime} {S X} (view : S -> X) (m : M S bool) : Prop :=
  forall e o e', m e = (o, e') -> o <> Returns true -> view (self e') = view (self e).

(** The characters [int] can accept somewhere in its argument. *)
Definition numeric_char (c : ascii) : bool :=
  (pyint.is_digit c || pyint.is_space c || Ascii.eqb c "_"%char
   || Ascii.eqb c "+"%char || Ascii.eqb c "-"%char)%bool.

Fixpoint all_numeric (s : string) : bool :=
  match s with
  | EmptyString => true
  | String c r => (numeric_char c && all_numeric r)%bool
  end.

Fixpoint has_sep (s : string) : bool :=
  match s with
  | EmptyString => false
  | String c r => (Ascii.eqb c posixpath.sep || has_sep r)%bool
  end.

(** ** Runtimes in which part of the export cannot be used

    As the example runtime, but the label specification can be made
    unreadable and the placeholders impossible to build. *)

Module faulty.

Definition runtime (labels_ok placeholders_ok : bool) : Runtime := {|
  Payload := list Z;
  RTensor := Tensor (list Z);
  Model := string;
  Proto := gmap string TensorSpec;
  FeedDict := gmap string (Tensor (list Z));
  Session := unit;
  Graph := unit;
  ConfigProto := unit;
  TfVariable := string;
  Operation := list string;
  RtState := unit;
  rshape := shape;
  numpy := fun t => t;
  load_t2r_assets_to_file := fun _ rt => (Gives (echo.feature_spec, echo.label_spec), rt);
  from_proto := fun p rt =>
    match p !! "y" with
    | Some _ => if labels_ok then (Gives p, rt)
                else (Throws (RuntimeFailure "cannot parse the label specification"), rt)
    | None => (Gives p, rt)
    end;
  saved_model_load := fun path rt => (Gives path, rt);
  model_predict := fun _ features rt => (Gives features, rt);
  model_global_step := fun _ rt => (Gives (mkTensor [] [0]), rt);
  call_value := fun t rt => (Gives t, rt);
  new_graph := fun rt => (Gives tt, rt);
  new_session := fun _ _ rt => (Gives tt, rt);
  make_placeholders := fun spec rt =>
    match spec with
    | Some sp => if placeholders_ok then (Gives (echo.placeholder <$> sp), rt)
                 else (Throws (RuntimeFailure "cannot build the placeholders"), rt)
    | None => (Throws (TypeError "no specification"), rt)
    end;
  map_feed_dict := fun _ features rt => (Gives features, rt);
  session_run_fetches := fun _ _ feed rt => (Gives feed, rt);
  session_run_tensor := fun _ t rt => (Gives t, rt);
  session_run_op := fun _ _ rt => (Gives tt, rt);
  global_variables := fun rt => (Gives [], rt);
  local_variables := fun rt => (Gives [], rt);
  variables_initializer := fun vs rt => (Gives vs, rt)
|}.

Definition world (labels_ok placeholders_ok : bool)
    : World (RT := runtime labels_ok placeholders_ok) :=
  mkWorld (RT := runtime labels_ok placeholders_ok) echo.ticking 0 echo.always 0 tt.

Definition fresh (labels_ok placeholders_ok : bool)
    : SavedModelPredictorBase.Predictor (RT := runtime labels_ok placeholders_ok) :=
  SavedModelPredictorBase.__init__ (RT := runtime labels_ok placeholders_ok)
    echo.path 600%Q.

Definition graph_mode (labels_ok placeholders_ok : bool)
    : SavedModelTF1Predictor.Predictor (RT := runtime labels_ok placeholders_ok) :=
  SavedModelTF1Predictor.mkPredictor (RT := runtime labels_ok placeholders_ok)
    (fresh labels_ok placeholders_ok) None tt tt None None.

Definition start {S} (labels_ok placeholders_ok : bool) (o : S)
    : Env (RT := runtime labels_ok placeholders_ok) S :=
  mkEnv (RT := runtime labels_ok placeholders_ok) o (world labels_ok placeholders_ok) [].

End faulty.

(** ** Integer literals, as a grammar

    What [int] reads, said without the scanner:

      literal ::= space* [ "+" | "-" ] number
      number  ::= digit ( [ "_" ] digit )* space*

    together with the value the digits write. *)

Module intspec.

(** [sys.int_info.default_max_str_digits] of CPython 3.11. *)
Definition MAX_STR_DIGITS : nat := 4300.

Definition is_ascii (c : ascii) : bool := (N_of_ascii c <? 128)%N.

Fixpoint ascii_string (s : string) : bool :=
  match s with
  | EmptyString => true
  | String c r => (is_ascii c && ascii_string r)%bool
  end.

Fixpoint digit_count (s : string) : nat :=
  match s with
  | EmptyString => 0%nat
  | String c r => ((if pyint.is_digit c then 1 else 0) + digit_count r)%nat
  end.

(** [rest s acc v]: after a digit, with the digits so far worth [acc],
    the rest [s] of a number completes it to the value [v]. *)
Inductive rest : string -> Z -> Z -> Prop :=
| rest_end ws acc :
    pyint.all_space ws = true -> rest ws acc acc
| rest_digit d r acc v :
    pyint.is_digit d = true ->
    rest r (10 * acc + pyint.digit_value d) v ->
    rest (String d r) acc v
| rest_underscore d r acc v :
    pyint.is_digit d = true ->
    rest r (10 * acc + pyint.digit_value d) v ->
    rest (String "_"%char (String d r)) acc v.

Definition number_from (acc : Z) (s : string) (v : Z) : Prop :=
  exists d r, s = String d r /\ pyint.is_digit d = true /\
              rest r (10 * acc + pyint.digit_value d) v.

Definition number (s : string) (v : Z) : Prop := number_from 0 s v.

Inductive literal : string -> Z -> Prop :=
| literal_space c s v :
    pyint.is_space c = true -> literal s v -> literal (String c s) v
| literal_plus s v : number s v -> literal (String "+"%char s) v
| literal_minus s v : number s v -> literal (String "-"%char s) (- v)
| literal_plain s v : number s v -> literal s v.

End intspec.

(** ** A wall clock that is set back

    [time.time()] reads the wall clock, which can be set back between
    two readings: here it reads 10 and then 5. *)

Module skew.

Definition clock (k : nat) : Q :=
  match k with
  | O => 10%Q
  | _ => 5%Q
  end.

Definition world : World (RT := echo.runtime) :=
  mkWorld (RT := echo.runtime) clock 0 echo.always 0 tt.

End skew.

(** * Properties *)

(** ** Paths and integers on examples *)

Example basename_version : posixpath.basename "/tmp/export/1589" = "1589".
Proof. reflexivity. Qed.

Example basename_trailing_sep : posixpath.basename "/tmp/export/1589/" = "".
Proof. reflexivity. Qed.

Example basename_plain : posixpath.basename "42" = "42".
Proof. reflexivity. Qed.

Example join_assets :
  posixpath.join "/tmp/export/1589" ["assets.extra"; "t2r_assets.pbtxt"]
  = "/tmp/export/1589/assets.extra/t2r_assets.pbtxt".
Proof. reflexivity. Qed.

Example int_plain : pyint.int "1589" = Some 1589.
Proof. reflexivity. Qed.

Example int_padded : pyint.int " +1_000 " = Some 1000.
Proof. reflexivity. Qed.

Example int_negative : pyint.int "-007" = Some (-7).
Proof. reflexivity. Qed.

Example int_rejects :
  map pyint.int [""; "latest"; "1__0"; "_1"; "1_"; "+ 1"; "12a"; "1 2"; "-"]
  = [None; None; None; None; None; None; None; None; None].
Proof. reflexivity. Qed.

(** ** The monad *)

Section MonadFacts.
Context `{RT : Runtime} {S : Type}.

Lemma bind_raises {A B} (m : M S A) (k : A -> M S B) e x e' :
  m e = (Raises x, e') -> bind m k e = (Raises x, e').
Proof. intros H. unfold bind. now rewrite H. Qed.

Lemma bind_returns {A B} (m : M S A) (k : A -> M S B) e a e' :
  m e = (Returns a, e') -> bind m k e = k a e'.
Proof. intros H. unfold bind. now rewrite H. Qed.

Lemma bind_returns_inv {A B} (m : M S A) (k : A -> M S B) e b e' :
  bind m k e = (Returns b, e') ->
  exists a e1, m e = (Returns a, e1) /\ k a e1 = (Returns b, e').
Proof.
  unfold bind. destruct (m e) as [[a | x |] e1]; intros H; try discriminate.
  eauto.
Qed.

Lemma env_eta (e : Env S) : mkEnv (self e) (world e) (log e) = e.
Proof. now destruct e. Qed.

End MonadFacts.

Lemma Qltb_true a b : Qltb a b = true <-> (a < b)%Q.
Proof.
  unfold Qltb. rewrite negb_true_iff. split.
  - intros H. apply Qnot_le_lt. intros Hle. apply Qle_bool_iff in Hle. congruence.
  - intros H. destruct (Qle_bool b a) eqn:E; [|reflexivity].
    apply Qle_bool_iff in E. exfalso. exact (Qlt_not_le _ _ H E).
Qed.

Lemma Qltb_false a b : Qltb a b = false <-> (b <= a)%Q.
Proof.
  unfold Qltb. rewrite negb_false_iff. apply Qle_bool_iff.
Qed.

(** ** Use before and after [restore] *)

Section Loaded.
Context `{RT : Runtime} {S : Type} (base : S -> SavedModelPredictorBase.Predictor).

Lemma assert_is_loaded_unloaded (e : Env S) :
  SavedModelPredictorBase._model (base (self e)) = None ->
  fails_unrestored (SavedModelPredictorBase.assert_is_loaded base) e.
Proof.
  intros H. unfold fails_unrestored, SavedModelPredictorBase.assert_is_loaded,
    SavedModelPredictorBase.attr, bind, get_self, ret, raise.
  now rewrite H.
Qed.

Lemma assert_is_loaded_loaded (e : Env S) :
  SavedModelPredictorBase._model (base (self e)) <> None ->
  SavedModelPredictorBase.assert_is_loaded base e = (Returns tt, e).
Proof.
  intros H. unfold SavedModelPredictorBase.assert_is_loaded,
    SavedModelPredictorBase.attr, bind, get_self, ret, raise.
  destruct (SavedModelPredictorBase._model (base (self e))); [reflexivity | congruence].
Qed.

(** Whatever starts with [assert_is_loaded] fails on an unloaded predictor. *)
Lemma guarded_unloaded {A} (k : unit -> M S A) (e : Env S) :
  SavedModelPredictorBase._model (base (self e)) = None ->
  fails_unrestored (bind (SavedModelPredictorBase.assert_is_loaded base) k) e.
Proof.
  intros H. unfold fails_unrestored. apply bind_raises.
  now apply assert_is_loaded_unloaded.
Qed.

Lemma base_predict_unloaded features (e : Env S) :
  SavedModelPredictorBase._model (base (self e)) = None ->
  fails_unrestored (SavedModelPredictorBase.predict base features) e.
Proof. apply guarded_unloaded. Qed.

End Loaded.

Create HintDb methods.

#[local] Hint Unfold
  SavedModelTF2Predictor.get_feature_specification
  SavedModelTF2Predictor.get_label_specification
  SavedModelTF2Predictor.model_version
  SavedModelTF2Predictor.global_step
  SavedModelTF2Predictor.model_path
  SavedModelTF2Predictor.close
  SavedModelTF2Predictor.assert_is_loaded
  SavedModelTF1Predictor.get_feature_specification
  SavedModelTF1Predictor.get_label_specification
  SavedModelTF1Predictor.model_version
  SavedModelTF1Predictor.global_step
  SavedModelTF1Predictor.model_path
  SavedModelTF1Predictor.predict
  SavedModelTF1Predictor.close
  SavedModelTF1Predictor.assert_is_loaded
  SavedModelPredictorBase.get_feature_specification
  SavedModelPredictorBase.get_label_specification
  SavedModelPredictorBase.model_version
  SavedModelPredictorBase.global_step
  SavedModelPredictorBase.model_path
  SavedModelPredictorBase.close : methods.

(** C1.  On a predictor of either variant whose [_model] is still
    [None], each of [predict], [get_feature_specification],
    [get_label_specification], [model_version], [global_step] and
    [model_path] raises the [ValueError] that says the predictor has not
    been restored, and the predictor, the world and the log are left as
    they were. *)
Theorem use_before_restore_raises `{RT : Runtime} :
  (forall (e : Env SavedModelTF2Predictor.Predictor) features,
      SavedModelPredictorBase._model (self e) = None ->
      fails_unrestored (SavedModelTF2Predictor.predict features) e /\
      fails_unrestored SavedModelTF2Predictor.get_feature_specification e /\
      fails_unrestored SavedModelTF2Predictor.get_label_specification e /\
      fails_unrestored SavedModelTF2Predictor.model_version e /\
      fails_unrestored SavedModelTF2Predictor.global_step e /\
      fails_unrestored SavedModelTF2Predictor.model_path e) /\
  (forall (e : Env SavedModelTF1Predictor.Predictor) features,
      SavedModelPredictorBase._model (SavedModelTF1Predictor.base (self e)) = None ->
      fails_unrestored (SavedModelTF1Predictor.predict features) e /\
      fails_unrestored SavedModelTF1Predictor.get_feature_specification e /\
      fails_unrestored SavedModelTF1Predictor.get_label_specification e /\
      fails_unrestored SavedModelTF1Predictor.model_version e /\
      fails_unrestored SavedModelTF1Predictor.global_step e /\
      fails_unrestored SavedModelTF1Predictor.model_path e).
Proof.
  split; intros e features H.
  - repeat split; try (autounfold with methods; now apply guarded_unloaded).
    unfold SavedModelTF2Predictor.predict, fails_unrestored. apply bind_raises.
    now apply (base_predict_unloaded SavedModelTF2Predictor.base).
  - repeat split; autounfold with methods; now apply guarded_unloaded.
Qed.

(** ** [close] *)

Section Close.
Context `{RT : Runtime} {S : Type} (base : S -> SavedModelPredictorBase.Predictor).

Lemma close_loaded (e : Env S) :
  SavedModelPredictorBase._model (base (self e)) <> None ->
  SavedModelPredictorBase.close base e = (Returns tt, e).
Proof. apply assert_is_loaded_loaded. Qed.

Lemma close_then {A} (op : M S A) (e : Env S) :
  SavedModelPredictorBase._model (base (self e)) <> None ->
  bind (SavedModelPredictorBase.close base) (fun _ => op) e = op e.
Proof.
  intros H. now rewrite (bind_returns _ _ e tt e (close_loaded e H)).
Qed.

End Close.

(** C5.  On a loaded predictor [close] returns and changes nothing:
    the predictor (its [_model] included), the world and the log are
    what they were, so any call made after [close] does what it would
    have done without it.  This holds for any class that inherits
    [close], and so for both variants. *)
Theorem close_changes_nothing `{RT : Runtime} :
  (forall S (base : S -> SavedModelPredictorBase.Predictor) (e : Env S),
      SavedModelPredictorBase._model (base (self e)) <> None ->
      SavedModelPredictorBase.close base e = (Returns tt, e) /\
      forall A (op : M S A),
        bind (SavedModelPredictorBase.close base) (fun _ => op) e = op e) /\
  (forall (e : Env SavedModelTF2Predictor.Predictor),
      SavedModelPredictorBase._model (self e) <> None ->
      SavedModelTF2Predictor.close e = (Returns tt, e) /\
      SavedModelPredictorBase._model (self (snd (SavedModelTF2Predictor.close e))) <> None /\
      forall A (op : M _ A), bind SavedModelTF2Predictor.close (fun _ => op) e = op e) /\
  (forall (e : Env SavedModelTF1Predictor.Predictor),
      SavedModelPredictorBase._model (SavedModelTF1Predictor.base (self e)) <> None ->
      SavedModelTF1Predictor.close e = (Returns tt, e) /\
      SavedModelPredictorBase._model
        (SavedModelTF1Predictor.base (self (snd (SavedModelTF1Predictor.close e)))) <> None /\
      forall A (op : M _ A), bind SavedModelTF1Predictor.close (fun _ => op) e = op e).
Proof.
  split; [|split].
  - intros S base e H. split; [now apply close_loaded|].
    intros A op. now apply close_then.
  - intros e H. unfold SavedModelTF2Predictor.close.
    rewrite (close_loaded SavedModelTF2Predictor.base e H).
    repeat split; [exact H|]. intros A op.
    now apply (close_then SavedModelTF2Predictor.base).
  - intros e H. unfold SavedModelTF1Predictor.close.
    rewrite (close_loaded SavedModelTF1Predictor.base e H).
    repeat split; [exact H|]. intros A op.
    now apply (close_then SavedModelTF1Predictor.base).
Qed.

(** ** [init_randomly] *)

(** C7.  [init_randomly] raises, whatever the state of the predictor:
    a [ValueError] saying that random initialization is not supported
    for this predictor. *)
Theorem init_randomly_always_raises `{RT : Runtime} :
  (forall S (e : Env S),
      SavedModelPredictorBase.init_randomly e
      = (Raises (ValueError "Random initialization is not supported for SavedModelPredictor."), e)) /\
  (forall e : Env SavedModelTF2Predictor.Predictor,
      SavedModelTF2Predictor.init_randomly e
      = (Raises (ValueError "Random initialization is not supported for SavedModelPredictor."), e)) /\
  (forall e : Env SavedModelTF1Predictor.Predictor,
      SavedModelTF1Predictor.init_randomly e
      = (Raises (ValueError "Random initialization is not supported for SavedModelPredictor."), e)).
Proof. repeat split. Qed.

(** ** The eager-mode overrides *)

(** C8.  The eager-mode [predict] is the base [predict] followed by the
    numpy conversion of every output: same keys, and under each key the
    conversion of the tensor the base call returned; an exception of the
    base call passes through.  Its [global_step] is the conversion of
    the step the base property returns. *)
Theorem eager_overrides_convert_to_numpy `{RT : Runtime} :
  forall (e : Env SavedModelTF2Predictor.Predictor) features,
    (SavedModelTF2Predictor.predict features e =
      match SavedModelPredictorBase.predict SavedModelTF2Predictor.base features e with
      | (Returns predictions, e') => (Returns (numpy <$> predictions), e')
      | (Raises x, e') => (Raises x, e')
      | (Unfinished, e') => (Unfinished, e')
      end) /\
    (forall predictions e',
        SavedModelPredictorBase.predict SavedModelTF2Predictor.base features e
        = (Returns predictions, e') ->
        exists arrays,
          SavedModelTF2Predictor.predict features e = (Returns arrays, e') /\
          dom arrays = dom predictions /\
          forall k, arrays !! k = numpy <$> predictions !! k) /\
    (SavedModelTF2Predictor.global_step e =
      match SavedModelPredictorBase.global_step SavedModelTF2Predictor.base e with
      | (Returns step, e') => (Returns (numpy step), e')
      | (Raises x, e') => (Raises x, e')
      | (Unfinished, e') => (Unfinished, e')
      end).
Proof.
  intros e features. split; [|split].
  - unfold SavedModelTF2Predictor.predict, bind, ret.
    now destruct (SavedModelPredictorBase.predict _ features e) as [[p | x |] e'].
  - intros predictions e' H. exists (numpy <$> predictions).
    split; [|split].
    + unfold SavedModelTF2Predictor.predict. now rewrite (bind_returns _ _ _ _ _ H).
    + apply dom_fmap_L.
    + intros k. apply lookup_fmap.
  - unfold SavedModelTF2Predictor.global_step, SavedModelPredictorBase.global_step,
      SavedModelTF2Predictor.assert_is_loaded, bind, ret.
    destruct (SavedModelPredictorBase.assert_is_loaded _ e) as [[[] | x |] e1];
      try reflexivity.
    destruct (SavedModelPredictorBase.attr _ _ e1) as [[[m|] | x |] e2]; try reflexivity.
    all: now destruct (call _ _ e2) as [[step | x |] e3].
Qed.

(** ** [restore] *)

Section Restore.
Context `{RT : Runtime} {S : Type}.
Context (base : S -> SavedModelPredictorBase.Predictor).
Context (with_base : SavedModelPredictorBase.Predictor -> S -> S).

(** One round of the polling loop decides: the loop is left by its
    condition, by [break], or by the [AttributeError] of the lookup of
    [_saved_model_dir]. *)
Lemma wait_for_assets_round fuel fname start (e : Env S) :
  SavedModelPredictorBase.wait_for_assets base (Datatypes.S fuel) fname start e =
  let w := world e in
  if Qltb (clock w (clock_reads w) - start)%Q
          (SavedModelPredictorBase._timeout (base (self e)))
  then
    if gfile w (gfile_queries w) fname
    then (Returns true, asked fname (read_clock e))
    else (Raises (AttributeError "object has no attribute '_saved_model_dir'"),
          asked fname (read_clock e))
  else (Returns false, read_clock e).
Proof.
  cbn [SavedModelPredictorBase.wait_for_assets].
  unfold bind, time_time, SavedModelPredictorBase.attr, get_self, ret, read_clock,
    asked, gfile_exists. cbn.
  destruct (Qltb _ _); [|reflexivity].
  destruct (gfile _ _ _); reflexivity.
Qed.

(** The bound on the rounds is never reached: one round is enough. *)
Lemma wait_for_assets_total fuel fname start (e : Env S) :
  SavedModelPredictorBase.wait_for_assets base (Datatypes.S fuel) fname start e =
  SavedModelPredictorBase.wait_for_assets base 1 fname start e.
Proof. now rewrite !wait_for_assets_round. Qed.

Lemma restore_total fuel (e : Env S) :
  SavedModelPredictorBase.restore base with_base (Datatypes.S fuel) e =
  SavedModelPredictorBase.restore base with_base 1 e.
Proof.
  unfold SavedModelPredictorBase.restore.
  unfold bind at 1 3. unfold SavedModelPredictorBase.attr at 1 3, bind at 1 3, get_self, ret.
  unfold bind at 1 3. cbn [time_time].
  unfold bind at 1 3. now rewrite wait_for_assets_total.
Qed.

(** The loop condition fails at once: warning, [False]. *)
Lemma restore_timed_out fuel (e : Env S) :
  (SavedModelPredictorBase._timeout (base (self e)) <= first_elapsed e)%Q ->
  SavedModelPredictorBase.restore base with_base (Datatypes.S fuel) e =
  (Returns false,
   logged (LoggingWarning "No saved_model found after %s seconds."
                          (SavedModelPredictorBase._timeout (base (self e))))
          (read_clock (read_clock e))).
Proof.
  intros H. apply Qltb_false in H.
  unfold SavedModelPredictorBase.restore.
  unfold bind at 1. unfold SavedModelPredictorBase.attr at 1, bind at 1, get_self, ret.
  unfold bind at 1. cbn [time_time].
  unfold bind at 1. rewrite wait_for_assets_round.
  cbn [world self clock clock_reads]. unfold first_elapsed in H. rewrite H.
  reflexivity.
Qed.

(** The marker file is missing at the first poll: [AttributeError]. *)
Lemma restore_marker_missing fuel (e : Env S) :
  (first_elapsed e < SavedModelPredictorBase._timeout (base (self e)))%Q ->
  marker_at_first_poll base e = false ->
  SavedModelPredictorBase.restore base with_base (Datatypes.S fuel) e =
  (Raises (AttributeError "object has no attribute '_saved_model_dir'"),
   asked (marker_file (base (self e))) (read_clock (read_clock e))).
Proof.
  intros H Hm. apply Qltb_true in H.
  unfold SavedModelPredictorBase.restore.
  unfold bind at 1. unfold SavedModelPredictorBase.attr at 1, bind at 1, get_self, ret.
  unfold bind at 1. cbn [time_time].
  unfold bind at 1. rewrite wait_for_assets_round.
  cbn [world self clock clock_reads gfile gfile_queries].
  unfold first_elapsed in H. rewrite H.
  unfold marker_at_first_poll, marker_file in Hm. rewrite Hm.
  reflexivity.
Qed.

End Restore.

Section SelfIsKept.
Context `{RT : Runtime} {S : Type} (base : S -> SavedModelPredictorBase.Predictor).

Lemma keeps_self_bind {A B} (m : M S A) (k : A -> M S B) :
  keeps_self m -> (forall a, keeps_self (k a)) -> keeps_self (bind m k).
Proof.
  intros Hm Hk e o e'. unfold bind.
  destruct (m e) as [[a | x |] e1] eqn:E; apply Hm in E.
  - intros H. apply Hk in H. congruence.
  - intros H. injection H as _ <-. exact E.
  - intros H. injection H as _ <-. exact E.
Qed.

Lemma keeps_self_ret {A} (a : A) : keeps_self (S := S) (ret a).
Proof. intros e o e' H. now injection H as _ <-. Qed.

Lemma keeps_self_raise {A} x : keeps_self (S := S) (A := A) (raise x).
Proof. intros e o e' H. now injection H as _ <-. Qed.

Lemma keeps_self_get : keeps_self (S := S) get_self.
Proof. intros e o e' H. now injection H as _ <-. Qed.

Lemma keeps_self_emit ev : keeps_self (S := S) (emit ev).
Proof. intros e o e' H. now injection H as _ <-. Qed.

Lemma keeps_self_call {A} ev (f : RtState -> Answer A * RtState) :
  keeps_self (S := S) (call ev f).
Proof.
  intros e o e'. unfold call.
  destruct (f _) as [[a | x] rt']; intros H; now injection H as _ <-.
Qed.

Lemma keeps_self_time : keeps_self (S := S) time_time.
Proof. intros e o e' H. now injection H as _ <-. Qed.

Lemma keeps_self_gfile path : keeps_self (S := S) (gfile_exists path).
Proof. intros e o e' H. now injection H as _ <-. Qed.

Lemma keeps_self_attr {A} (f : SavedModelPredictorBase.Predictor -> A) :
  keeps_self (SavedModelPredictorBase.attr base f).
Proof.
  apply keeps_self_bind; [apply keeps_self_get | intros; apply keeps_self_ret].
Qed.

Lemma keeps_self_assert : keeps_self (SavedModelPredictorBase.assert_is_loaded base).
Proof.
  apply keeps_self_bind; [apply keeps_self_attr|].
  intros [m|]; [apply keeps_self_ret | apply keeps_self_raise].
Qed.

Lemma keeps_self_map_structure func features spec :
  keeps_self (S := S) (SavedModelPredictorBase.map_structure func features spec).
Proof.
  unfold SavedModelPredictorBase.map_structure.
  destruct spec; [|apply keeps_self_raise].
  destruct (bool_decide _); [apply keeps_self_ret | apply keeps_self_raise].
Qed.

(** [predict] assigns to no attribute. *)
Lemma keeps_self_predict features :
  keeps_self (SavedModelPredictorBase.predict base features).
Proof.
  unfold SavedModelPredictorBase.predict, SavedModelPredictorBase.get_feature_specification.
  apply keeps_self_bind; [apply keeps_self_assert | intros _].
  apply keeps_self_bind;
    [apply keeps_self_bind; [apply keeps_self_assert | intros _; apply keeps_self_attr]|].
  intros spec. apply keeps_self_bind; [apply keeps_self_map_structure|].
  intros expanded. apply keeps_self_bind; [apply keeps_self_attr|].
  intros [m|]; [apply keeps_self_call | apply keeps_self_raise].
Qed.

Lemma attr_returns {A} (f : SavedModelPredictorBase.Predictor -> A) (e e' : Env S) o :
  SavedModelPredictorBase.attr base f e = (o, e') ->
  o = Returns (f (base (self e))) /\ e' = e.
Proof.
  unfold SavedModelPredictorBase.attr, bind, get_self, ret.
  intros H. now injection H as <- <-.
Qed.

Lemma set_self_returns (f : S -> S) (e e' : Env S) o :
  set_self f e = (o, e') -> self e' = f (self e).
Proof. unfold set_self. intros H. now injection H as _ <-. Qed.

End SelfIsKept.

Ltac invert_bind H :=
  let a := fresh "a" in
  let e := fresh "e" in
  let H1 := fresh "Hstep" in
  apply bind_returns_inv in H as (a & e & H1 & H).

Section RestoreSucceeds.
Context `{RT : Runtime} {S : Type}.
Context (base : S -> SavedModelPredictorBase.Predictor).
Context (with_base : SavedModelPredictorBase.Predictor -> S -> S).
Hypothesis base_with_base : forall p o, base (with_base p o) = p.

(** A [restore] that returns [True] has set the three attributes. *)
Lemma restore_true_populates fuel (e e' : Env S) :
  SavedModelPredictorBase.restore base with_base fuel e = (Returns true, e') ->
  exists m fs ls,
    SavedModelPredictorBase._model (base (self e')) = Some m /\
    SavedModelPredictorBase._feature_spec (base (self e')) = Some fs /\
    SavedModelPredictorBase._label_spec (base (self e')) = Some ls.
Proof.
  intros H. unfold SavedModelPredictorBase.restore in H.
  do 3 invert_bind H.
  destruct a1; cbn [negb] in H.
  - do 9 invert_bind H.
    unfold ret in H. injection H as <-.
    repeat match goal with
      | Hc : call _ _ _ = _ |- _ => apply keeps_self_call in Hc
      | Hs : SavedModelPredictorBase.assign _ _ _ _ = _ |- _ => apply set_self_returns in Hs
      | Ha : SavedModelPredictorBase.attr _ _ _ = _ |- _ => apply attr_returns in Ha as [_ ->]
      end.
    eexists _, _, _.
    repeat (rewrite base_with_base ||
            match goal with
            | Hs : self ?x = _ |- context [self ?x] => rewrite Hs
            end).
    cbn. repeat split.
  - do 2 invert_bind H. unfold ret in H. discriminate.
Qed.

End RestoreSucceeds.

Section GraphMode.
Context `{RT : Runtime}.

Lemma with_default_session_and_graph_runs {A}
    (body : M SavedModelTF1Predictor.Predictor A) e :
  SavedModelTF1Predictor.with_default_session_and_graph body e =
  (fst (body (entered e)), left (snd (body (entered e)))).
Proof.
  unfold SavedModelTF1Predictor.with_default_session_and_graph, entered, left, logged.
  cbn. now destruct (body _) as [o e2].
Qed.

Lemma graph_mode_base_with_base p o :
  SavedModelTF1Predictor.base (SavedModelTF1Predictor.with_base p o) = p.
Proof. reflexivity. Qed.

(** What [restore] of the graph-mode predictor can return: [False], or
    [None] with the model loaded. *)
Lemma graph_mode_restore_returns fuel (e e' : Env SavedModelTF1Predictor.Predictor) r :
  SavedModelTF1Predictor.restore fuel e = (Returns r, e') ->
  r = Some false \/
  (r = None /\
   SavedModelPredictorBase._model (SavedModelTF1Predictor.base (self e')) <> None).
Proof.
  unfold SavedModelTF1Predictor.restore.
  rewrite with_default_session_and_graph_runs.
  match goal with |- context [fst (?b ?x)] => destruct (b x) as [o e2] eqn:Hb end.
  cbn [fst snd]. intros H. injection H as -> <-.
  invert_bind Hb. destruct a; cbn [negb] in Hb.
  - right.
    apply (restore_true_populates _ _ graph_mode_base_with_base) in Hstep
      as (m & fs & ls & Hm & _ & _).
    do 10 invert_bind Hb. unfold ret in Hb. injection Hb as <- <-.
    split; [reflexivity|].
    repeat match goal with
      | Hc : call _ _ _ = _ |- _ => apply keeps_self_call in Hc
      | Hs : set_self _ _ = _ |- _ => apply set_self_returns in Hs
      | Hg : get_self _ = _ |- _ => apply keeps_self_get in Hg
      | Ha : SavedModelPredictorBase.attr _ _ _ = _ |- _ => apply attr_returns in Ha as [_ ->]
      | Hp : SavedModelPredictorBase.predict _ _ _ = _ |- _ => apply keeps_self_predict in Hp
      end.
    unfold left, logged. cbn [emit snd self].
    repeat match goal with
      | Hs : self ?x = _ |- context [self ?x] => rewrite Hs; cbn [SavedModelTF1Predictor.base
            SavedModelTF1Predictor.set_predictions SavedModelTF1Predictor.set_features]
      end.
    rewrite Hm. discriminate.
  - left. unfold ret in Hb. now injection Hb as <- _.
Qed.

End GraphMode.

(** C9.  With a timeout that is zero or negative, and a clock that does
    not run backwards between its first two readings, [restore] returns
    [False] at once: it logs the warning, leaves the predictor as it
    was, and never asks whether the marker file exists, whatever the
    file system holds. *)
Theorem restore_nonpositive_timeout_gives_up `{RT : Runtime} :
  (forall fuel (e : Env SavedModelTF2Predictor.Predictor),
      (SavedModelPredictorBase._timeout (self e) <= 0)%Q ->
      (0 <= first_elapsed e)%Q ->
      let e' := logged (LoggingWarning "No saved_model found after %s seconds."
                                       (SavedModelPredictorBase._timeout (self e)))
                       (read_clock (read_clock e)) in
      SavedModelTF2Predictor.restore (Datatypes.S fuel) e = (Returns false, e') /\
      self e' = self e /\
      gfile_queries (world e') = gfile_queries (world e) /\
      polls (log e') = polls (log e)) /\
  (forall fuel (e : Env SavedModelTF1Predictor.Predictor),
      (SavedModelPredictorBase._timeout (SavedModelTF1Predictor.base (self e)) <= 0)%Q ->
      (0 <= first_elapsed e)%Q ->
      let e' := left (logged (LoggingWarning "No saved_model found after %s seconds."
                                (SavedModelPredictorBase._timeout
                                   (SavedModelTF1Predictor.base (self e))))
                             (read_clock (read_clock (entered e)))) in
      SavedModelTF1Predictor.restore (Datatypes.S fuel) e = (Returns (Some false), e') /\
      self e' = self e /\
      gfile_queries (world e') = gfile_queries (world e) /\
      polls (log e') = polls (log e)).
Proof.
  split; intros fuel e Ht Hc; cbv zeta.
  - split; [|repeat split].
    apply (restore_timed_out SavedModelTF2Predictor.base).
    exact (Qle_trans _ _ _ Ht Hc).
  - split; [|repeat split].
    unfold SavedModelTF1Predictor.restore.
    rewrite with_default_session_and_graph_runs.
    rewrite (bind_returns _ _ _ _ _
               (restore_timed_out SavedModelTF1Predictor.base
                  SavedModelTF1Predictor.with_base fuel (entered e)
                  (Qle_trans _ _ _ Ht Hc))).
    reflexivity.
Qed.

(** C2.  What the code does when the marker file is missing: as soon as
    the first poll finds no marker file within the timeout, [restore]
    raises [AttributeError] (the lookup of [self._saved_model_dir]); it
    returns no boolean and logs no warning.  The predictor itself is
    left as it was. *)
Theorem restore_marker_missing_raises `{RT : Runtime} :
  (forall fuel (e : Env SavedModelTF2Predictor.Predictor),
      (first_elapsed e < SavedModelPredictorBase._timeout (self e))%Q ->
      marker_at_first_poll SavedModelTF2Predictor.base e = false ->
      let e' := asked (marker_file (self e)) (read_clock (read_clock e)) in
      SavedModelTF2Predictor.restore (Datatypes.S fuel) e
      = (Raises (AttributeError "object has no attribute '_saved_model_dir'"), e') /\
      self e' = self e) /\
  (forall fuel (e : Env SavedModelTF1Predictor.Predictor),
      (first_elapsed e
       < SavedModelPredictorBase._timeout (SavedModelTF1Predictor.base (self e)))%Q ->
      marker_at_first_poll SavedModelTF1Predictor.base e = false ->
      let e' := left (asked (marker_file (SavedModelTF1Predictor.base (self e)))
                            (read_clock (read_clock (entered e)))) in
      SavedModelTF1Predictor.restore (Datatypes.S fuel) e
      = (Raises (AttributeError "object has no attribute '_saved_model_dir'"), e') /\
      self e' = self e).
Proof.
  split; intros fuel e Ht Hm; cbv zeta.
  - split; [|reflexivity].
    now apply (restore_marker_missing SavedModelTF2Predictor.base).
  - split; [|reflexivity].
    unfold SavedModelTF1Predictor.restore.
    rewrite with_default_session_and_graph_runs.
    rewrite (bind_raises _ _ _ _ _
               (restore_marker_missing SavedModelTF1Predictor.base
                  SavedModelTF1Predictor.with_base fuel (entered e) Ht Hm)).
    reflexivity.
Qed.

(** C3.  What the code does when the marker file is there: [restore] of
    the graph-mode predictor never returns [True].  On the example
    export it loads the specifications and the model and then returns
    [None]. *)
Theorem graph_mode_restore_never_true :
  (forall (RT : Runtime) fuel (e : Env SavedModelTF1Predictor.Predictor),
      fst (SavedModelTF1Predictor.restore fuel e) <> Returns (Some true)) /\
  (let r := SavedModelTF1Predictor.restore (RT := echo.runtime) 1
              (echo.start (echo.graph_mode echo.fresh) echo.world_with_marker) in
   fst r = Returns None /\
   SavedModelTF1Predictor.base (self (snd r)) = echo.loaded).
Proof.
  split.
  - intros RT fuel e H.
    destruct (SavedModelTF1Predictor.restore fuel e) as [o e'] eqn:E.
    cbn in H. subst o.
    apply graph_mode_restore_returns in E as [E | [E _]]; discriminate.
  - vm_compute. split; reflexivity.
Qed.

(** ** [predict] *)

Section Predict.
Context `{RT : Runtime} {S : Type} (base : S -> SavedModelPredictorBase.Predictor).

Lemma maybe_expand_dims_equal (f : Tensor Payload) s :
  shape f = spec_shape s ->
  SavedModelPredictorBase._maybe_expand_dims f s
  = mkTensor (Some 1%N :: shape f) (payload f).
Proof.
  intros H. unfold SavedModelPredictorBase._maybe_expand_dims.
  now rewrite bool_decide_eq_true_2.
Qed.

Lemma maybe_expand_dims_differs (f : Tensor Payload) s :
  shape f <> spec_shape s ->
  SavedModelPredictorBase._maybe_expand_dims f s = f.
Proof.
  intros H. unfold SavedModelPredictorBase._maybe_expand_dims.
  now rewrite bool_decide_eq_false_2.
Qed.

Lemma call_log {A} ev (f : RtState -> Answer A * RtState) (e : Env S) :
  log (snd (call ev f e)) = ev :: log e.
Proof. unfold call. now destruct (f _) as [[a | x] rt']. Qed.

(** On a loaded predictor whose features have the keys of the
    specification, [predict] is one call of the model on the features
    mapped through [_maybe_expand_dims]. *)
Lemma predict_loaded features (e : Env S) m spec :
  SavedModelPredictorBase._model (base (self e)) = Some m ->
  SavedModelPredictorBase._feature_spec (base (self e)) = Some spec ->
  dom features = dom spec ->
  let expanded := map_zip_with SavedModelPredictorBase._maybe_expand_dims features spec in
  SavedModelPredictorBase.predict base features e
  = call (ModelPredict m expanded) (model_predict m expanded) e.
Proof.
  intros Hm Hs Hd expanded.
  unfold SavedModelPredictorBase.predict, SavedModelPredictorBase.get_feature_specification,
    SavedModelPredictorBase.assert_is_loaded, SavedModelPredictorBase.attr,
    SavedModelPredictorBase.map_structure, bind, get_self, ret.
  cbn. rewrite Hm. cbn. rewrite Hm, Hs. cbn.
  rewrite bool_decide_eq_true_2 by exact Hd. cbn.
  now rewrite Hm.
Qed.

Lemma predict_expands :
  expands_before_delegating base (SavedModelPredictorBase.predict base).
Proof.
  intros e features spec k f s Hm Hs Hd Hf Hk Hshape Hlog.
  destruct (SavedModelPredictorBase._model (base (self e))) as [m|] eqn:Em;
    [|congruence].
  rewrite (predict_loaded features e m spec Em Hs Hd). cbv zeta.
  rewrite call_log, Hlog. cbn [handed_over].
  split; [discriminate|].
  intros handed [<- | []].
  rewrite map_lookup_zip_with, Hf, Hk. cbn.
  now rewrite (maybe_expand_dims_equal f s Hshape).
Qed.

End Predict.

Lemma eager_predict_expands `{RT : Runtime} :
  expands_before_delegating SavedModelTF2Predictor.base SavedModelTF2Predictor.predict.
Proof.
  intros e features spec k f s Hm Hs Hd Hf Hk Hshape Hlog.
  assert (Hlog' : log (snd (SavedModelTF2Predictor.predict features e))
                  = log (snd (SavedModelPredictorBase.predict
                                SavedModelTF2Predictor.base features e))).
  { unfold SavedModelTF2Predictor.predict, bind, ret.
    now destruct (SavedModelPredictorBase.predict _ features e) as [[p | x |] e']. }
  rewrite Hlog'.
  exact (predict_expands SavedModelTF2Predictor.base e features spec k f s
           Hm Hs Hd Hf Hk Hshape Hlog).
Qed.

(** The example runtime keeps the batch, and its conversion keeps shapes. *)
Lemma echo_batch_preserving : batch_preserving echo.runtime.
Proof.
  intros m features rt out rt' d H Hall j o Ho.
  cbn in H. injection H as <- _. exact (Hall j o Ho).
Qed.

Lemma echo_numpy_keeps_shape : numpy_keeps_shape echo.runtime.
Proof. intros t. reflexivity. Qed.

(** C4, as amended.  On a loaded base or eager-mode predictor, and
    features that have the keys of the feature specification, [predict]
    hands the model one mapping: a feature whose shape is the shape of
    its specification is in it with a leading dimension 1 put in front
    and its data unchanged, a feature of any other shape is in it as it
    was given.  If the runtime keeps the batch dimension and every
    feature came without one, every output has leading dimension 1 (for
    the eager-mode predictor, when the conversion keeps shapes). *)
Theorem predict_expands_missing_batch `{RT : Runtime} :
  forall (e : Env SavedModelTF2Predictor.Predictor) features spec m,
    SavedModelPredictorBase._model (self e) = Some m ->
    SavedModelPredictorBase._feature_spec (self e) = Some spec ->
    dom features = dom spec ->
    let expanded := map_zip_with SavedModelPredictorBase._maybe_expand_dims features spec in
    SavedModelPredictorBase.predict SavedModelTF2Predictor.base features e
      = call (ModelPredict m expanded) (model_predict m expanded) e /\
    SavedModelTF2Predictor.predict features e
      = bind (call (ModelPredict m expanded) (model_predict m expanded))
             (fun predictions => ret (numpy <$> predictions)) e /\
    expands_before_delegating SavedModelTF2Predictor.base
      (SavedModelPredictorBase.predict SavedModelTF2Predictor.base) /\
    expands_before_delegating SavedModelTF2Predictor.base SavedModelTF2Predictor.predict /\
    (forall k f s, features !! k = Some f -> spec !! k = Some s ->
       shape f = spec_shape s ->
       expanded !! k = Some (mkTensor (Some 1%N :: shape f) (payload f))) /\
    (forall k f s, features !! k = Some f -> spec !! k = Some s ->
       shape f <> spec_shape s ->
       expanded !! k = Some f) /\
    (batch_preserving RT ->
     (forall k f s, features !! k = Some f -> spec !! k = Some s ->
        shape f = spec_shape s) ->
     (forall out e',
        SavedModelPredictorBase.predict SavedModelTF2Predictor.base features e
        = (Returns out, e') ->
        forall j o, out !! j = Some o -> head (rshape o) = Some (Some 1%N)) /\
     (numpy_keeps_shape RT ->
      forall out e',
        SavedModelTF2Predictor.predict features e = (Returns out, e') ->
        forall j o, out !! j = Some o -> head (shape o) = Some (Some 1%N))).
Proof.
  intros e features spec m Hm Hs Hd expanded.
  pose proof (predict_loaded SavedModelTF2Predictor.base features e m spec Hm Hs Hd)
    as Hp. cbv zeta in Hp. fold expanded in Hp.
  assert (Heq : forall k f s, features !! k = Some f -> spec !! k = Some s ->
            shape f = spec_shape s ->
            expanded !! k = Some (mkTensor (Some 1%N :: shape f) (payload f))).
  { intros k f s Hf Hk Hshape. unfold expanded.
    rewrite map_lookup_zip_with, Hf, Hk. cbn.
    now rewrite (maybe_expand_dims_equal f s Hshape). }
  assert (Hbase : batch_preserving RT ->
     (forall k f s, features !! k = Some f -> spec !! k = Some s ->
        shape f = spec_shape s) ->
     forall out e',
        SavedModelPredictorBase.predict SavedModelTF2Predictor.base features e
        = (Returns out, e') ->
        forall j o, out !! j = Some o -> head (rshape o) = Some (Some 1%N)).
  { intros Hbatch Hall out e' Hout j o Ho.
    rewrite Hp in Hout. unfold call in Hout.
    destruct (model_predict m expanded (runtime (world e))) as [[a | x] rt'] eqn:E;
      [|discriminate].
    injection Hout as -> _.
    apply (Hbatch m expanded _ _ _ (Some 1%N) E) with (j := j); [|exact Ho].
    intros k f Hf. unfold expanded in Hf.
    apply map_lookup_zip_with_Some in Hf as (f0 & s & -> & Hf0 & Hs0).
    now rewrite (maybe_expand_dims_equal f0 s (Hall k f0 s Hf0 Hs0)). }
  split; [exact Hp|]. split.
  { unfold SavedModelTF2Predictor.predict. unfold bind at 1. rewrite Hp.
    reflexivity. }
  split; [apply predict_expands|]. split; [apply eager_predict_expands|].
  split; [exact Heq|]. split.
  { intros k f s Hf Hk Hshape. unfold expanded.
    rewrite map_lookup_zip_with, Hf, Hk. cbn.
    now rewrite (maybe_expand_dims_differs f s Hshape). }
  intros Hbatch Hall. split; [now apply Hbase|].
  intros Hnp out e' Hout j o Ho.
  unfold SavedModelTF2Predictor.predict in Hout.
  apply bind_returns_inv in Hout as (raw & e1 & Hraw & Hret).
  unfold ret in Hret. injection Hret as <- _.
  rewrite lookup_fmap in Ho.
  destruct (raw !! j) as [t|] eqn:Et; [|discriminate].
  cbn in Ho. injection Ho as <-. rewrite Hnp.
  exact (Hbase Hbatch Hall raw e1 Hraw j t Et).
Qed.

(** C4, as stated, fails for the graph-mode predictor: its [predict]
    hands the features to the feed mapping as they were given.  On the
    example runtime the feature [x] of shape [[3]], the shape of its
    specification, is fed with shape [[3]]. *)
Lemma graph_mode_predict_does_not_expand :
  ~ expands_before_delegating (RT := echo.runtime)
      SavedModelTF1Predictor.base SavedModelTF1Predictor.predict.
Proof.
  intros H.
  destruct (H (echo.start echo.graph_mode_loaded echo.world_with_marker)
              echo.unbatched echo.feature_spec "x"
              (mkTensor [Some 3%N] [1; 2; 3])
              (mkTensorSpec [Some 3%N] "float32")) as [_ Hall];
    try (vm_compute; reflexivity).
  - discriminate.
  - specialize (Hall echo.unbatched).
    assert (Hin : In echo.unbatched
              (handed_over
                 (log (snd (SavedModelTF1Predictor.predict (RT := echo.runtime)
                              echo.unbatched
                              (echo.start echo.graph_mode_loaded
                                          echo.world_with_marker)))))).
    { vm_compute. left. reflexivity. }
    specialize (Hall Hin). vm_compute in Hall. discriminate.
Qed.

(** ** [model_version] *)

Section Paths.
Local Open Scope Z_scope.

Lemma rfind_from_lower s : forall i last, -1 <= last -> 0 <= i ->
  -1 <= posixpath.rfind_from s i last.
Proof.
  induction s as [|c r IH]; intros i last Hl Hi; cbn; [exact Hl|].
  apply IH; [destruct (Ascii.eqb c posixpath.sep)|]; lia.
Qed.

(** Where the scan starts only shifts the index it finds. *)
Lemma rfind_from_shift s : forall i last,
  posixpath.rfind_from s i last =
  if (posixpath.rfind s <? 0)%Z then last else i + posixpath.rfind s.
Proof.
  unfold posixpath.rfind.
  induction s as [|c r IH]; intros i last; cbn; [reflexivity|].
  rewrite (IH (i + 1)), (IH 1).
  pose proof (rfind_from_lower r 0 (-1) ltac:(lia) ltac:(lia)) as Hlow.
  destruct (posixpath.rfind_from r 0 (-1) <? 0) eqn:E.
  - destruct (Ascii.eqb c posixpath.sep); cbn; [|reflexivity].
    f_equal. lia.
  - apply Z.ltb_ge in E.
    destruct (1 + posixpath.rfind_from r 0 (-1) <? 0) eqn:E2;
      [apply Z.ltb_lt in E2; lia|]. lia.
Qed.

Lemma basename_no_sep s : (posixpath.rfind s <? 0)%Z = true -> posixpath.basename s = s.
Proof.
  intros H. unfold posixpath.basename. apply Z.ltb_lt in H.
  pose proof (rfind_from_lower s 0 (-1) ltac:(lia) ltac:(lia)) as Hlow.
  unfold posixpath.rfind in *.
  replace (posixpath.rfind_from s 0 (-1) + 1) with 0 by lia.
  now destruct s.
Qed.

Lemma basename_cons c r :
  posixpath.basename (String c r) =
  if (posixpath.rfind r <? 0)%Z
  then (if Ascii.eqb c posixpath.sep then r else String c r)
  else posixpath.basename r.
Proof.
  unfold posixpath.basename at 1. unfold posixpath.rfind at 1.
  cbn [posixpath.rfind_from]. rewrite rfind_from_shift.
  pose proof (rfind_from_lower r 0 (-1) ltac:(lia) ltac:(lia)) as Hlow.
  fold (posixpath.rfind r) in Hlow.
  destruct (posixpath.rfind r <? 0) eqn:E.
  - destruct (Ascii.eqb c posixpath.sep); reflexivity.
  - apply Z.ltb_ge in E. unfold posixpath.basename.
    replace (Z.to_nat (0 + 1 + posixpath.rfind r + 1))
      with (Datatypes.S (Z.to_nat (posixpath.rfind r + 1))) by lia.
    reflexivity.
Qed.



Lemma digit_is_plain c :
  pyint.is_digit c = true ->
  pyint.is_space c = false /\
  Ascii.eqb c "-"%char = false /\
  Ascii.eqb c "+"%char = false.
Proof.
  destruct c as [[] [] [] [] [] [] [] []]; cbv; intros H; try discriminate;
    repeat split.
Qed.

Lemma digits_of_all_digits s : forall acc prev,
  pathspec.all_digits s = true ->
  pyint.digits s acc prev =
  match s with
  | EmptyString => if prev then Some acc else None
  | String _ _ => Some (pathspec.decimal acc s)
  end.
Proof.
  induction s as [|c r IH]; intros acc prev H; [reflexivity|].
  cbn in H. apply andb_true_iff in H as [Hc Hr].
  cbn [pyint.digits pathspec.decimal]. rewrite Hc.
  rewrite (IH _ true Hr). now destruct r.
Qed.

(** On a name made of decimal digits [int] gives the number it writes. *)
Lemma int_of_all_digits s :
  pathspec.all_digits s = true -> s <> EmptyString ->
  pyint.int s = Some (pathspec.decimal 0 s).
Proof.
  intros H Hne. destruct s as [|c r]; [congruence|].
  pose proof H as H'. cbn in H'. apply andb_true_iff in H' as [Hc _].
  destruct (digit_is_plain c Hc) as (Hs & Hm & Hp).
  unfold pyint.int. cbn [pyint.lstrip]. rewrite Hs, Hm, Hp.
  now rewrite (digits_of_all_digits _ 0 false H).
Qed.

End Paths.

(** ** [int] reads exactly the integer literals *)

Section IntLiterals.
Local Open Scope Z_scope.

Lemma space_is_plain c :
  pyint.is_space c = true ->
  pyint.is_digit c = false /\
  Ascii.eqb c "_"%char = false /\
  Ascii.eqb c "-"%char = false /\
  Ascii.eqb c "+"%char = false.
Proof.
  destruct c as [[] [] [] [] [] [] [] []]; cbv; intros H; try discriminate;
    repeat split.
Qed.

Lemma digit_is_no_underscore c :
  pyint.is_digit c = true -> Ascii.eqb c "_"%char = false.
Proof.
  destruct c as [[] [] [] [] [] [] [] []]; cbv; intros H; try discriminate;
    reflexivity.
Qed.

(** The scanner after a digit accepts what [rest] derives. *)
Lemma rest_digits s acc v :
  intspec.rest s acc v -> pyint.digits s acc true = Some v.
Proof.
  induction 1 as [ws acc Hws | d r acc v Hd _ IH | d r acc v Hd _ IH].
  - destruct ws as [|c r]; [reflexivity|].
    pose proof Hws as Hc. cbn in Hc. apply andb_true_iff in Hc as [Hc _].
    destruct (space_is_plain c Hc) as (Hd & Hu & _).
    cbn [pyint.digits]. rewrite Hd, Hu, Hws. reflexivity.
  - cbn [pyint.digits]. now rewrite Hd.
  - cbn [pyint.digits].
    change (pyint.is_digit "_"%char) with false.
    change (Ascii.eqb "_"%char "_"%char) with true.
    cbn iota. now rewrite Hd.
Qed.

Lemma number_digits s acc v :
  intspec.number_from acc s v -> pyint.digits s acc false = Some v.
Proof.
  intros (d & r & -> & Hd & Hr). cbn [pyint.digits]. rewrite Hd.
  now apply rest_digits.
Qed.

(** And it accepts nothing else. *)
Lemma digits_grammar s :
  (forall acc v, pyint.digits s acc true = Some v -> intspec.rest s acc v) /\
  (forall acc v, pyint.digits s acc false = Some v -> intspec.number_from acc s v).
Proof.
  induction s as [|c r [IHt IHf]]; split; intros acc v H.
  - cbn in H. injection H as <-. now apply intspec.rest_end.
  - discriminate.
  - cbn [pyint.digits] in H. destruct (pyint.is_digit c) eqn:Ed.
    + apply intspec.rest_digit; [exact Ed | now apply IHt].
    + destruct (Ascii.eqb c "_"%char) eqn:Eu.
      * apply Ascii.eqb_eq in Eu. subst c.
        destruct (IHf acc v H) as (d & r' & -> & Hd & Hr).
        now apply intspec.rest_underscore.
      * destruct (pyint.all_space (String c r)) eqn:Ea; cbn in H; [|discriminate].
        injection H as <-. now apply intspec.rest_end.
  - cbn [pyint.digits] in H. destruct (pyint.is_digit c) eqn:Ed.
    + exists c, r. repeat split; [exact Ed | now apply IHt].
    + destruct (Ascii.eqb c "_"%char); cbn in H; discriminate.
Qed.

Lemma int_space c s : pyint.is_space c = true -> pyint.int (String c s) = pyint.int s.
Proof. intros H. unfold pyint.int. cbn [pyint.lstrip]. now rewrite H. Qed.

Lemma int_no_space c s :
  pyint.is_space c = false ->
  pyint.int (String c s) =
  if Ascii.eqb c "-"%char then Z.opp <$> pyint.digits s 0 false
  else if Ascii.eqb c "+"%char then pyint.digits s 0 false
  else pyint.digits (String c s) 0 false.
Proof. intros H. unfold pyint.int. cbn [pyint.lstrip]. now rewrite H. Qed.

(** [int] returns [v] on exactly the strings the grammar gives the
    value [v]. *)
Lemma int_literal s v : pyint.int s = Some v <-> intspec.literal s v.
Proof.
  split.
  - revert v. induction s as [|c r IH]; intros v H; [discriminate|].
    destruct (pyint.is_space c) eqn:Es.
    + rewrite (int_space c r Es) in H. apply intspec.literal_space; auto.
    + rewrite (int_no_space c r Es) in H.
      destruct (Ascii.eqb c "-"%char) eqn:Em.
      * apply Ascii.eqb_eq in Em. subst c.
        destruct (pyint.digits r 0 false) as [n|] eqn:En; [|discriminate].
        cbn in H. injection H as <-.
        apply intspec.literal_minus. now apply digits_grammar.
      * destruct (Ascii.eqb c "+"%char) eqn:Ep.
        -- apply Ascii.eqb_eq in Ep. subst c.
           apply intspec.literal_plus. now apply digits_grammar.
        -- apply intspec.literal_plain. now apply digits_grammar.
  - induction 1 as [c s v Hc _ IH | s v Hn | s v Hn | s v Hn].
    + now rewrite (int_space c s Hc).
    + rewrite int_no_space by reflexivity. cbn.
      now apply number_digits.
    + rewrite int_no_space by reflexivity. cbn.
      now rewrite (number_digits s 0 v Hn).
    + pose proof Hn as (d & r & -> & Hd & Hr).
      destruct (digit_is_plain d Hd) as (Hs & Hm & Hp).
      rewrite (int_no_space d r Hs), Hm, Hp.
      now apply number_digits.
Qed.


End IntLiterals.


(** ** [restore] when the export is there *)

Section RestoreLoads.
Context `{RT : Runtime} {S : Type}.
Context (base : S -> SavedModelPredictorBase.Predictor).
Context (with_base : SavedModelPredictorBase.Predictor -> S -> S).
Hypothesis base_with_base : forall p o, base (with_base p o) = p.

(** With the marker file found by the first poll and an export the
    runtime can load, the base [restore] returns [True] and sets the
    three attributes from the export. *)
Lemma restore_loads fuel (e : Env S) fp lp fs ls m rt1 rt2 rt3 rt4 :
  (first_elapsed e < SavedModelPredictorBase._timeout (base (self e)))%Q ->
  marker_at_first_poll base e = true ->
  load_t2r_assets_to_file (marker_file (base (self e))) (runtime (world e))
    = (Gives (fp, lp), rt1) ->
  from_proto fp rt1 = (Gives fs, rt2) ->
  from_proto lp rt2 = (Gives ls, rt3) ->
  saved_model_load (SavedModelPredictorBase._saved_model_path (base (self e))) rt3
    = (Gives m, rt4) ->
  exists e',
    SavedModelPredictorBase.restore base with_base (Datatypes.S fuel) e = (Returns true, e') /\
    base (self e') =
      SavedModelPredictorBase.mkPredictor
        (SavedModelPredictorBase._saved_model_path (base (self e)))
        (SavedModelPredictorBase._timeout (base (self e)))
        (Some m) (Some fs) (Some ls).
Proof.
  intros Ht Hmark Hload Hfs Hls Hm. apply Qltb_true in Ht.
  unfold SavedModelPredictorBase.restore.
  unfold bind at 1. unfold SavedModelPredictorBase.attr at 1, bind at 1, get_self, ret.
  unfold bind at 1. cbn [time_time].
  unfold bind at 1. rewrite wait_for_assets_round.
  cbn [world self clock clock_reads gfile gfile_queries].
  unfold first_elapsed in Ht. rewrite Ht.
  unfold marker_at_first_poll, marker_file in Hmark. rewrite Hmark.
  unfold marker_file in Hload.
  unfold SavedModelPredictorBase.assign, SavedModelPredictorBase.attr, bind, call,
    get_self, set_self, ret, asked, read_clock. cbn - [posixpath.join_step].
  unfold posixpath.join in Hload. cbn [fold_left] in Hload. rewrite Hload.
  cbn - [posixpath.join_step].
  rewrite Hfs. cbn. rewrite Hls. cbn. rewrite !base_with_base. cbn.
  rewrite Hm. cbn. eexists. split; [reflexivity|]. cbn.
  now rewrite !base_with_base.
Qed.

End RestoreLoads.

(** * The theorems at work on the example runtime *)

Lemma use_before_restore_raises_witness :
  fails_unrestored (SavedModelTF2Predictor.predict (RT := echo.runtime) echo.unbatched)
                   (echo.start echo.fresh echo.world_with_marker) /\
  fails_unrestored (SavedModelTF1Predictor.global_step (RT := echo.runtime))
                   (echo.start (echo.graph_mode echo.fresh) echo.world_with_marker).
Proof.
  split.
  - destruct (proj1 (use_before_restore_raises (RT := echo.runtime))
                (echo.start echo.fresh echo.world_with_marker) echo.unbatched
                eq_refl) as (H & _).
    exact H.
  - destruct (proj2 (use_before_restore_raises (RT := echo.runtime))
                (echo.start (echo.graph_mode echo.fresh) echo.world_with_marker)
                echo.unbatched eq_refl) as (_ & _ & _ & _ & H & _).
    exact H.
Defined.

Lemma close_changes_nothing_witness :
  SavedModelTF2Predictor.close (RT := echo.runtime)
    (echo.start echo.loaded echo.world_with_marker)
  = (Returns tt, echo.start echo.loaded echo.world_with_marker).
Proof.
  refine (proj1 (proj1 (proj2 (close_changes_nothing (RT := echo.runtime)))
                   (echo.start echo.loaded echo.world_with_marker) _)).
  cbn. discriminate.
Defined.

Lemma restore_nonpositive_timeout_gives_up_witness :
  SavedModelTF2Predictor.restore (RT := echo.runtime) 1
    (echo.start echo.impatient echo.world_with_marker)
  = (Returns false,
     logged (LoggingWarning "No saved_model found after %s seconds." 0%Q)
            (read_clock (read_clock (echo.start echo.impatient echo.world_with_marker)))).
Proof.
  refine (proj1 (proj1 (restore_nonpositive_timeout_gives_up (RT := echo.runtime))
                   0%nat (echo.start echo.impatient echo.world_with_marker) _ _)).
  - vm_compute. discriminate.
  - vm_compute. discriminate.
Defined.

Lemma restore_marker_missing_raises_witness :
  SavedModelTF2Predictor.restore (RT := echo.runtime) 1
    (echo.start echo.fresh echo.world_without_marker)
  = (Raises (AttributeError "object has no attribute '_saved_model_dir'"),
     asked "/tmp/export/1589/assets.extra/t2r_assets.pbtxt"
           (read_clock (read_clock (echo.start echo.fresh echo.world_without_marker)))).
Proof.
  refine (proj1 (proj1 (restore_marker_missing_raises (RT := echo.runtime))
                   0%nat (echo.start echo.fresh echo.world_without_marker) _ _)).
  - vm_compute. reflexivity.
  - reflexivity.
Defined.

Lemma predict_expands_missing_batch_witness :
  exists out e',
    SavedModelTF2Predictor.predict (RT := echo.runtime) echo.unbatched
      (echo.start echo.loaded echo.world_with_marker) = (Returns out, e') /\
    out !! "x" = Some (mkTensor [Some 1%N; Some 3%N] [1; 2; 3]) /\
    forall j o, out !! j = Some o -> head (shape o) = Some (Some 1%N).
Proof.
  destruct (predict_expands_missing_batch (RT := echo.runtime)
              (echo.start echo.loaded echo.world_with_marker)
              echo.unbatched echo.feature_spec echo.path
              eq_refl eq_refl ltac:(vm_compute; reflexivity))
    as (_ & Hp & _ & _ & _ & _ & Hout).
  eexists _, _. split; [|split].
  - vm_compute. reflexivity.
  - vm_compute. reflexivity.
  - refine (proj2 (Hout echo_batch_preserving _) echo_numpy_keeps_shape _ _ _).
    + intros k f s Hf Hs.
      destruct (decide (k = "x")) as [-> | Hne].
      * vm_compute in Hf, Hs. injection Hf as <-. injection Hs as <-. reflexivity.
      * unfold echo.unbatched in Hf. rewrite lookup_singleton_ne in Hf by congruence.
        discriminate.
    + vm_compute. reflexivity.
Defined.


Lemma eager_overrides_convert_to_numpy_witness :
  exists arrays e',
    SavedModelTF2Predictor.predict (RT := echo.runtime) echo.batched
      (echo.start echo.loaded echo.world_with_marker) = (Returns arrays, e') /\
    dom arrays = dom echo.batched.
Proof.
  destruct (proj1 (proj2 (eager_overrides_convert_to_numpy (RT := echo.runtime)
                            (echo.start echo.loaded echo.world_with_marker) echo.batched))
              echo.batched
              (snd (SavedModelPredictorBase.predict (RT := echo.runtime)
                      SavedModelTF2Predictor.base echo.batched
                      (echo.start echo.loaded echo.world_with_marker))))
    as (arrays & H & Hdom & _).
  - vm_compute. reflexivity.
  - exists arrays. eexists. split; [exact H | exact Hdom].
Defined.

(** * Further properties of the code *)

(** ** What [restore] leaves alone *)

Section Frames.
Context `{RT : Runtime} {S : Type}.
Context (base : S -> SavedModelPredictorBase.Predictor).
Context (with_base : SavedModelPredictorBase.Predictor -> S -> S).
Hypothesis base_with_base : forall p o, base (with_base p o) = p.

Lemma keeps_of_keeps_self {A X} (view : S -> X) (m : M S A) :
  keeps_self m -> keeps view m.
Proof. intros H e o e' E. now rewrite (H e o e' E). Qed.

Lemma keeps_bind {A B X} (view : S -> X) (m : M S A) (k : A -> M S B) :
  keeps view m -> (forall a, keeps view (k a)) -> keeps view (bind m k).
Proof.
  intros Hm Hk e o e'. unfold bind.
  destruct (m e) as [[a | x |] e1] eqn:E; apply Hm in E.
  - intros H. apply Hk in H. congruence.
  - intros H. injection H as _ <-. exact E.
  - intros H. injection H as _ <-. exact E.
Qed.

Lemma keeps_assign {X} (view : S -> X) f :
  (forall o, view (with_base (f (base o)) o) = view o) ->
  keeps view (SavedModelPredictorBase.assign base with_base f).
Proof.
  intros Hv e o e' E. apply set_self_returns in E. rewrite E. apply Hv.
Qed.

Lemma keeps_self_wait fuel fname start :
  keeps_self (SavedModelPredictorBase.wait_for_assets base fuel fname start).
Proof.
  destruct fuel as [|fuel]; intros e o e'.
  - intros H. now injection H as _ <-.
  - rewrite wait_for_assets_round. cbv zeta.
    destruct (Qltb _ _); [destruct (gfile _ _ _)|];
      intros H; now injection H as _ <-.
Qed.

(** [restore] keeps every view of [self] that its three assignments keep. *)
Lemma keeps_restore {X} (view : S -> X) fuel :
  (forall s o,
      view (with_base (SavedModelPredictorBase.set_feature_spec s (base o)) o) = view o) ->
  (forall s o,
      view (with_base (SavedModelPredictorBase.set_label_spec s (base o)) o) = view o) ->
  (forall m o,
      view (with_base (SavedModelPredictorBase.set_model m (base o)) o) = view o) ->
  keeps view (SavedModelPredictorBase.restore base with_base fuel).
Proof.
  intros Hf Hl Hm. unfold SavedModelPredictorBase.restore.
  apply keeps_bind; [apply keeps_of_keeps_self, keeps_self_attr | intros path].
  apply keeps_bind; [apply keeps_of_keeps_self, keeps_self_time | intros start].
  apply keeps_bind; [apply keeps_of_keeps_self, keeps_self_wait | intros found].
  destruct found; cbn [negb].
  - apply keeps_bind; [apply keeps_of_keeps_self, keeps_self_attr | intros path'].
    apply keeps_bind; [apply keeps_of_keeps_self, keeps_self_call | intros assets].
    apply keeps_bind; [apply keeps_of_keeps_self, keeps_self_call | intros fs].
    apply keeps_bind; [now apply keeps_assign | intros _].
    apply keeps_bind; [apply keeps_of_keeps_self, keeps_self_call | intros ls].
    apply keeps_bind; [now apply keeps_assign | intros _].
    apply keeps_bind; [apply keeps_of_keeps_self, keeps_self_attr | intros path''].
    apply keeps_bind; [apply keeps_of_keeps_self, keeps_self_call | intros m].
    apply keeps_bind; [now apply keeps_assign | intros _].
    apply keeps_of_keeps_self, keeps_self_ret.
  - apply keeps_bind; [apply keeps_of_keeps_self, keeps_self_attr | intros t].
    apply keeps_bind; [apply keeps_of_keeps_self, keeps_self_emit | intros _].
    apply keeps_of_keeps_self, keeps_self_ret.
Qed.

Lemma keeps_unless_true_bind {A X} (view : S -> X) (m : M S A) (k : A -> M S bool) :
  keeps view m -> (forall a, keeps_unless_true view (k a)) ->
  keeps_unless_true view (bind m k).
Proof.
  intros Hm Hk e o e'. unfold bind.
  destruct (m e) as [[a | x |] e1] eqn:E; apply Hm in E.
  - intros H Ho. rewrite (Hk a e1 o e' H Ho). exact E.
  - intros H _. injection H as _ <-. exact E.
  - intros H _. injection H as _ <-. exact E.
Qed.

Lemma keeps_unless_true_of_keeps {X} (view : S -> X) (m : M S bool) :
  keeps view m -> keeps_unless_true view m.
Proof. intros H e o e' E _. exact (H e o e' E). Qed.

(** [_model] is assigned last: whatever stops [restore] before its
    [return True] leaves [_model] as it was. *)
Lemma restore_keeps_model_unless_true fuel :
  keeps_unless_true (fun o => SavedModelPredictorBase._model (base o))
    (SavedModelPredictorBase.restore base with_base fuel).
Proof.
  unfold SavedModelPredictorBase.restore.
  apply keeps_unless_true_bind; [apply keeps_of_keeps_self, keeps_self_attr | intros path].
  apply keeps_unless_true_bind; [apply keeps_of_keeps_self, keeps_self_time | intros start].
  apply keeps_unless_true_bind; [apply keeps_of_keeps_self, keeps_self_wait | intros found].
  destruct found; cbn [negb].
  - apply keeps_unless_true_bind; [apply keeps_of_keeps_self, keeps_self_attr | intros path'].
    apply keeps_unless_true_bind; [apply keeps_of_keeps_self, keeps_self_call | intros assets].
    apply keeps_unless_true_bind; [apply keeps_of_keeps_self, keeps_self_call | intros fs].
    apply keeps_unless_true_bind;
      [apply keeps_assign; intros o; now rewrite !base_with_base | intros _].
    apply keeps_unless_true_bind; [apply keeps_of_keeps_self, keeps_self_call | intros ls].
    apply keeps_unless_true_bind;
      [apply keeps_assign; intros o; now rewrite !base_with_base | intros _].
    apply keeps_unless_true_bind; [apply keeps_of_keeps_self, keeps_self_attr | intros path''].
    apply keeps_unless_true_bind; [apply keeps_of_keeps_self, keeps_self_call | intros m].
    intros e o e' H Ho. exfalso. apply Ho.
    unfold bind, SavedModelPredictorBase.assign, set_self, ret in H.
    now injection H as <- _.
  - apply keeps_unless_true_of_keeps.
    apply keeps_bind; [apply keeps_of_keeps_self, keeps_self_attr | intros t].
    apply keeps_bind; [apply keeps_of_keeps_self, keeps_self_emit | intros _].
    apply keeps_of_keeps_self, keeps_self_ret.
Qed.

(** A [restore] that returns [False] has assigned nothing. *)
Lemma restore_false_keeps_self fuel (e e' : Env S) :
  SavedModelPredictorBase.restore base with_base fuel e = (Returns false, e') ->
  self e' = self e.
Proof.
  intros H. unfold SavedModelPredictorBase.restore in H.
  do 3 invert_bind H.
  apply keeps_self_attr in Hstep. apply keeps_self_time in Hstep0.
  apply keeps_self_wait in Hstep1.
  destruct a1; cbn [negb] in H.
  - do 9 invert_bind H. unfold ret in H. discriminate.
  - do 2 invert_bind H. unfold ret in H. injection H as <-.
    apply keeps_self_attr in Hstep2. apply keeps_self_emit in Hstep3.
    congruence.
Qed.

End Frames.

Section GraphModeFrames.
Context `{RT : Runtime}.

Lemma keeps_with_default_session_and_graph {A X}
    (view : SavedModelTF1Predictor.Predictor -> X)
    (body : M SavedModelTF1Predictor.Predictor A) :
  keeps view body ->
  keeps view (SavedModelTF1Predictor.with_default_session_and_graph body).
Proof.
  intros Hb e o e'. rewrite with_default_session_and_graph_runs.
  destruct (body (entered e)) as [o1 e1] eqn:E. apply Hb in E.
  cbn [fst snd]. intros H. injection H as _ <-. exact E.
Qed.

Lemma keeps_set_self {X} (view : SavedModelTF1Predictor.Predictor -> X) f :
  (forall o, view (f o) = view o) -> keeps view (set_self f).
Proof. intros Hv e o e' E. apply set_self_returns in E. rewrite E. apply Hv. Qed.

(** The graph-mode [restore] keeps every view of [self] that ignores
    the five attributes it assigns. *)
Lemma keeps_graph_mode_restore {X} (view : SavedModelTF1Predictor.Predictor -> X) fuel :
  (forall p o,
      SavedModelPredictorBase._saved_model_path p
        = SavedModelPredictorBase._saved_model_path (SavedModelTF1Predictor.base o) ->
      SavedModelPredictorBase._timeout p
        = SavedModelPredictorBase._timeout (SavedModelTF1Predictor.base o) ->
      view (SavedModelTF1Predictor.with_base p o) = view o) ->
  (forall v o, view (SavedModelTF1Predictor.set_features v o) = view o) ->
  (forall v o, view (SavedModelTF1Predictor.set_predictions v o) = view o) ->
  keeps view (SavedModelTF1Predictor.restore fuel).
Proof.
  intros Hb Hf Hp. unfold SavedModelTF1Predictor.restore.
  apply keeps_with_default_session_and_graph.
  apply keeps_bind.
  { apply keeps_restore; intros s o; apply Hb; reflexivity. }
  intros restored. destruct restored; cbn [negb];
    [|apply keeps_of_keeps_self, keeps_self_ret].
  apply keeps_bind; [apply keeps_of_keeps_self, keeps_self_attr | intros spec].
  apply keeps_bind; [apply keeps_of_keeps_self, keeps_self_call | intros ph].
  apply keeps_bind; [now apply keeps_set_self | intros _].
  apply keeps_bind; [apply keeps_of_keeps_self, keeps_self_predict | intros preds].
  apply keeps_bind; [now apply keeps_set_self | intros _].
  apply keeps_bind; [apply keeps_of_keeps_self, keeps_self_call | intros gv].
  apply keeps_bind; [apply keeps_of_keeps_self, keeps_self_call | intros lv].
  apply keeps_bind; [apply keeps_of_keeps_self, keeps_self_call | intros init].
  apply keeps_bind; [apply keeps_of_keeps_self, keeps_self_get | intros o].
  apply keeps_bind; [apply keeps_of_keeps_self, keeps_self_call | intros _].
  apply keeps_of_keeps_self, keeps_self_ret.
Qed.

End GraphModeFrames.

(** X1.  [restore] never changes what the constructor was given: the
    saved-model path and the timeout are the same after any call of
    [restore], however it ends, and so are the configuration, the graph
    and the session of a graph-mode predictor. *)
Theorem restore_keeps_configuration `{RT : Runtime} :
  (forall fuel (e : Env SavedModelTF2Predictor.Predictor),
      let e' := snd (SavedModelTF2Predictor.restore fuel e) in
      SavedModelPredictorBase._saved_model_path (self e')
        = SavedModelPredictorBase._saved_model_path (self e) /\
      SavedModelPredictorBase._timeout (self e')
        = SavedModelPredictorBase._timeout (self e)) /\
  (forall fuel (e : Env SavedModelTF1Predictor.Predictor),
      let e' := snd (SavedModelTF1Predictor.restore fuel e) in
      SavedModelPredictorBase._saved_model_path (SavedModelTF1Predictor.base (self e'))
        = SavedModelPredictorBase._saved_model_path (SavedModelTF1Predictor.base (self e)) /\
      SavedModelPredictorBase._timeout (SavedModelTF1Predictor.base (self e'))
        = SavedModelPredictorBase._timeout (SavedModelTF1Predictor.base (self e)) /\
      SavedModelTF1Predictor._tf_config (self e') = SavedModelTF1Predictor._tf_config (self e) /\
      SavedModelTF1Predictor._graph (self e') = SavedModelTF1Predictor._graph (self e) /\
      SavedModelTF1Predictor._session (self e') = SavedModelTF1Predictor._session (self e)).
Proof.
  split; intros fuel e; cbv zeta.
  - destruct (SavedModelTF2Predictor.restore fuel e) as [o e'] eqn:E. cbn [snd].
    split.
    + exact (keeps_restore SavedModelTF2Predictor.base SavedModelTF2Predictor.with_base
               SavedModelPredictorBase._saved_model_path fuel
               (fun _ _ => eq_refl) (fun _ _ => eq_refl) (fun _ _ => eq_refl) e o e' E).
    + exact (keeps_restore SavedModelTF2Predictor.base SavedModelTF2Predictor.with_base
               SavedModelPredictorBase._timeout fuel
               (fun _ _ => eq_refl) (fun _ _ => eq_refl) (fun _ _ => eq_refl) e o e' E).
  - destruct (SavedModelTF1Predictor.restore fuel e) as [o e'] eqn:E. cbn [snd].
    repeat split.
    + refine (keeps_graph_mode_restore
                (fun o => SavedModelPredictorBase._saved_model_path
                            (SavedModelTF1Predictor.base o)) fuel _ _ _ e o e' E);
        [intros p o0 Hp _; exact Hp | reflexivity | reflexivity].
    + refine (keeps_graph_mode_restore
                (fun o => SavedModelPredictorBase._timeout
                            (SavedModelTF1Predictor.base o)) fuel _ _ _ e o e' E);
        [intros p o0 _ Ht; exact Ht | reflexivity | reflexivity].
    + refine (keeps_graph_mode_restore SavedModelTF1Predictor._tf_config fuel _ _ _ e o e' E);
        reflexivity.
    + refine (keeps_graph_mode_restore SavedModelTF1Predictor._graph fuel _ _ _ e o e' E);
        reflexivity.
    + refine (keeps_graph_mode_restore SavedModelTF1Predictor._session fuel _ _ _ e o e' E);
        reflexivity.
Qed.

(** X2.  [_model] is the last attribute [restore] assigns.  A
    [restore] of the eager-mode predictor that does not return [True]
    (it raised or returned [False]) leaves [_model] as it was, so a
    loaded predictor stays loaded with its old model and an unloaded
    one stays unloaded; and a [restore] of either variant that returns
    [False] has changed no attribute at all. *)
Theorem failed_restore_keeps_model `{RT : Runtime} :
  (forall fuel (e : Env SavedModelTF2Predictor.Predictor),
      fst (SavedModelTF2Predictor.restore fuel e) <> Returns true ->
      SavedModelPredictorBase._model (self (snd (SavedModelTF2Predictor.restore fuel e)))
      = SavedModelPredictorBase._model (self e)) /\
  (forall fuel (e : Env SavedModelTF2Predictor.Predictor),
      fst (SavedModelTF2Predictor.restore fuel e) = Returns false ->
      self (snd (SavedModelTF2Predictor.restore fuel e)) = self e) /\
  (forall fuel (e : Env SavedModelTF1Predictor.Predictor),
      fst (SavedModelTF1Predictor.restore fuel e) = Returns (Some false) ->
      self (snd (SavedModelTF1Predictor.restore fuel e)) = self e).
Proof.
  split; [|split]; intros fuel e.
  - destruct (SavedModelTF2Predictor.restore fuel e) as [o e'] eqn:E. cbn [fst snd].
    intros Ho.
    exact (restore_keeps_model_unless_true SavedModelTF2Predictor.base
             SavedModelTF2Predictor.with_base (fun _ _ => eq_refl) fuel e o e' E Ho).
  - destruct (SavedModelTF2Predictor.restore fuel e) as [o e'] eqn:E. cbn [fst snd].
    intros ->.
    exact (restore_false_keeps_self SavedModelTF2Predictor.base
             SavedModelTF2Predictor.with_base fuel e e' E).
  - unfold SavedModelTF1Predictor.restore.
    rewrite with_default_session_and_graph_runs. cbn [fst snd].
    match goal with |- context [fst (?b ?x)] => destruct (b x) as [o e2] eqn:Hb end.
    cbn [fst snd]. intros ->.
    invert_bind Hb. destruct a; cbn [negb] in Hb.
    + do 10 invert_bind Hb. unfold ret in Hb. discriminate.
    + unfold ret in Hb. injection Hb as <-.
      apply restore_false_keeps_self in Hstep. exact Hstep.
Qed.

Lemma failed_restore_keeps_model_witness :
  SavedModelPredictorBase._model
    (self (snd (SavedModelTF2Predictor.restore (RT := echo.runtime) 1
                  (echo.start echo.loaded echo.world_without_marker))))
  = Some echo.path.
Proof.
  refine (proj1 (failed_restore_keeps_model (RT := echo.runtime)) 1%nat
            (echo.start echo.loaded echo.world_without_marker) _).
  vm_compute. discriminate.
Defined.

(** ** What the methods ask of the outside, counted *)

Section Counting.
Context `{RT : Runtime} {S : Type}.
Context (p : Event -> bool).

Lemma adds_weaken {A} (m : M S A) n n' :
  adds_at_most p n m -> (n <= n')%nat -> adds_at_most p n' m.
Proof. intros H Hn e o e' E. specialize (H e o e' E). lia. Qed.

Lemma adds_bind {A B} (m : M S A) (k : A -> M S B) n1 n2 :
  adds_at_most p n1 m -> (forall a, adds_at_most p n2 (k a)) ->
  adds_at_most p (n1 + n2) (bind m k).
Proof.
  intros Hm Hk e o e'. unfold bind.
  destruct (m e) as [[a | x |] e1] eqn:E; apply Hm in E.
  - intros H. apply Hk in H. lia.
  - intros H. injection H as _ <-. lia.
  - intros H. injection H as _ <-. lia.
Qed.

Lemma adds_bind_l {A B} (m : M S A) (k : A -> M S B) n :
  adds_at_most p 0 m -> (forall a, adds_at_most p n (k a)) ->
  adds_at_most p n (bind m k).
Proof. intros Hm Hk. exact (adds_bind m k 0 n Hm Hk). Qed.

Lemma adds_bind_r {A B} (m : M S A) (k : A -> M S B) n :
  adds_at_most p n m -> (forall a, adds_at_most p 0 (k a)) ->
  adds_at_most p n (bind m k).
Proof.
  intros Hm Hk. apply (adds_weaken _ (n + 0)); [|lia]. now apply adds_bind.
Qed.

(** Computations that leave the log alone add nothing. *)
Lemma adds_nothing {A} (m : M S A) n :
  (forall e o e', m e = (o, e') -> log e' = log e) -> adds_at_most p n m.
Proof. intros H e o e' E. rewrite (H e o e' E). lia. Qed.

Lemma adds_ret {A} (a : A) n : adds_at_most p n (ret (S := S) a).
Proof. apply adds_nothing. intros e o e' H. now injection H as _ <-. Qed.

Lemma adds_raise {A} x n : adds_at_most p n (raise (S := S) (A := A) x).
Proof. apply adds_nothing. intros e o e' H. now injection H as _ <-. Qed.

Lemma adds_get n : adds_at_most p n (get_self (S := S)).
Proof. apply adds_nothing. intros e o e' H. now injection H as _ <-. Qed.

Lemma adds_set f n : adds_at_most p n (set_self (S := S) f).
Proof. apply adds_nothing. intros e o e' H. now injection H as _ <-. Qed.

Lemma adds_time n : adds_at_most p n (time_time (S := S)).
Proof. apply adds_nothing. intros e o e' H. now injection H as _ <-. Qed.

Lemma adds_emit ev n :
  ((if p ev then 1 else 0) <= n)%nat -> adds_at_most p n (emit (S := S) ev).
Proof.
  intros Hn e o e' H. injection H as _ <-. cbn [log count_events]. lia.
Qed.

Lemma adds_call {A} ev (f : RtState -> Answer A * RtState) n :
  ((if p ev then 1 else 0) <= n)%nat -> adds_at_most p n (call (S := S) ev f).
Proof.
  intros Hn e o e'. unfold call.
  destruct (f _) as [[a | x] rt']; intros H; injection H as _ <-;
    cbn [log count_events]; lia.
Qed.

Context (base : S -> SavedModelPredictorBase.Predictor).
Context (with_base : SavedModelPredictorBase.Predictor -> S -> S).

Lemma adds_attr {A} (f : SavedModelPredictorBase.Predictor -> A) n :
  adds_at_most p n (SavedModelPredictorBase.attr base f).
Proof.
  apply adds_nothing. intros e o e' H. now apply attr_returns in H as [_ ->].
Qed.

Lemma adds_assert n : adds_at_most p n (SavedModelPredictorBase.assert_is_loaded base).
Proof.
  apply adds_bind_l; [apply adds_attr|].
  intros [m|]; [apply adds_ret | apply adds_raise].
Qed.

Lemma adds_assign f n : adds_at_most p n (SavedModelPredictorBase.assign base with_base f).
Proof. apply adds_set. Qed.

(** The polling loop adds at most one entry: the one query it makes. *)
Lemma adds_wait fuel fname start n :
  (forall path found, (if p (GfileExists path found) then 1 else 0) <= n)%nat ->
  adds_at_most p n (SavedModelPredictorBase.wait_for_assets base fuel fname start).
Proof.
  intros Hn. destruct fuel as [|fuel]; intros e o e'.
  - intros H. injection H as _ <-. lia.
  - rewrite wait_for_assets_round. cbv zeta.
    destruct (Qltb _ _); [destruct (gfile _ _ _) eqn:G|];
      intros H; injection H as _ <-;
      unfold asked, read_clock, gfile_exists, time_time; cbn [snd log count_events];
      try lia.
    + cbn. rewrite G. specialize (Hn fname true).
      destruct (p (GfileExists fname true)); lia.
    + cbn. rewrite G. specialize (Hn fname false).
      destruct (p (GfileExists fname false)); lia.
Qed.

Hypothesis ignores_calls : forall entry, p (Called entry) = false.
Hypothesis ignores_warnings : forall fmt arg, p (LoggingWarning fmt arg) = false.

Lemma adds_plain_call {A} entry (f : RtState -> Answer A * RtState) n :
  adds_at_most p n (call (S := S) (Called entry) f).
Proof. apply adds_call. rewrite ignores_calls. lia. Qed.

Lemma adds_restore fuel n :
  (forall path found, (if p (GfileExists path found) then 1 else 0) <= n)%nat ->
  adds_at_most p n (SavedModelPredictorBase.restore base with_base fuel).
Proof.
  intros Hn. unfold SavedModelPredictorBase.restore.
  apply adds_bind_l; [apply adds_attr | intros path].
  apply adds_bind_l; [apply adds_time | intros start].
  apply adds_bind_r; [now apply adds_wait | intros found].
  destruct found; cbn [negb].
  - apply adds_bind_l; [apply adds_attr | intros path'].
    apply adds_bind_l; [apply adds_plain_call | intros assets].
    apply adds_bind_l; [apply adds_plain_call | intros fs].
    apply adds_bind_l; [apply adds_assign | intros _].
    apply adds_bind_l; [apply adds_plain_call | intros ls].
    apply adds_bind_l; [apply adds_assign | intros _].
    apply adds_bind_l; [apply adds_attr | intros path''].
    apply adds_bind_l; [apply adds_plain_call | intros m].
    apply adds_bind_l; [apply adds_assign | intros _].
    apply adds_ret.
  - apply adds_bind_l; [apply adds_attr | intros t].
    apply adds_bind_l; [|intros _; apply adds_ret].
    apply adds_emit. rewrite ignores_warnings. lia.
Qed.

Lemma adds_map_structure func features spec n :
  adds_at_most p n (SavedModelPredictorBase.map_structure (S := S) func features spec).
Proof.
  unfold SavedModelPredictorBase.map_structure.
  destruct spec; [|apply adds_raise].
  destruct (bool_decide _); [apply adds_ret | apply adds_raise].
Qed.

(** [predict] adds at most one entry: its call of the model. *)
Lemma adds_predict features n :
  (forall m f, (if p (ModelPredict m f) then 1 else 0) <= n)%nat ->
  adds_at_most p n (SavedModelPredictorBase.predict base features).
Proof.
  intros Hn.
  unfold SavedModelPredictorBase.predict, SavedModelPredictorBase.get_feature_specification.
  apply adds_bind_l; [apply adds_assert | intros _].
  apply adds_bind_l;
    [apply adds_bind_l; [apply adds_assert | intros _; apply adds_attr] | intros spec].
  apply adds_bind_l; [apply adds_map_structure | intros expanded].
  apply adds_bind_l; [apply adds_attr|].
  intros [m|]; [|apply adds_raise].
  apply adds_call. apply Hn.
Qed.

End Counting.

Section GraphModeCounting.
Context `{RT : Runtime} (p : Event -> bool).
Hypothesis ignores_calls : forall entry, p (Called entry) = false.
Hypothesis ignores_warnings : forall fmt arg, p (LoggingWarning fmt arg) = false.

Lemma adds_with_default_session_and_graph {A}
    (body : M SavedModelTF1Predictor.Predictor A) n :
  adds_at_most p n body ->
  adds_at_most p n (SavedModelTF1Predictor.with_default_session_and_graph body).
Proof.
  intros Hb e o e'. rewrite with_default_session_and_graph_runs.
  destruct (body (entered e)) as [o1 e1] eqn:E. apply Hb in E.
  cbn [fst snd]. intros H. injection H as _ <-.
  unfold left, entered, logged, emit in *. cbn [snd log count_events] in *.
  rewrite !ignores_calls in *. lia.
Qed.

Lemma adds_graph_mode_restore fuel n1 n2 :
  (forall path found, (if p (GfileExists path found) then 1 else 0) <= n1)%nat ->
  (forall m f, (if p (ModelPredict m f) then 1 else 0) <= n2)%nat ->
  adds_at_most p (n1 + n2) (SavedModelTF1Predictor.restore fuel).
Proof.
  intros H1 H2. unfold SavedModelTF1Predictor.restore.
  apply adds_with_default_session_and_graph.
  apply adds_bind; [now apply adds_restore | intros restored].
  destruct restored; cbn [negb]; [|apply adds_ret].
  apply adds_bind_l; [apply adds_attr | intros spec].
  apply adds_bind_l; [now apply adds_plain_call | intros ph].
  apply adds_bind_l; [apply adds_set | intros _].
  apply adds_bind_r; [now apply adds_predict | intros preds].
  apply adds_bind_l; [apply adds_set | intros _].
  apply adds_bind_l; [now apply adds_plain_call | intros gv].
  apply adds_bind_l; [now apply adds_plain_call | intros lv].
  apply adds_bind_l; [now apply adds_plain_call | intros init].
  apply adds_bind_l; [apply adds_get | intros o].
  apply adds_bind_l; [now apply adds_plain_call | intros _].
  apply adds_ret.
Qed.

Lemma adds_graph_mode_predict features n :
  (forall ph f, (if p (MapFeedDict ph f) then 1 else 0) <= n)%nat ->
  adds_at_most p n (SavedModelTF1Predictor.predict features).
Proof.
  intros Hn. unfold SavedModelTF1Predictor.predict, SavedModelTF1Predictor.assert_is_loaded.
  apply adds_bind_l; [apply adds_assert | intros _].
  apply adds_with_default_session_and_graph.
  apply adds_bind_l; [apply adds_get | intros o].
  apply adds_bind_r; [apply adds_call, Hn | intros feed].
  now apply adds_plain_call.
Qed.

End GraphModeCounting.

(** X3.  [restore] asks at most once whether the marker file exists,
    and it never logs the waiting message or sleeps: in the log of any
    call of [restore], of either variant and however the call ends,
    there is at most one more file query than before and no more
    waiting entry. *)
Theorem restore_polls_at_most_once `{RT : Runtime} :
  (forall fuel (e : Env SavedModelTF2Predictor.Predictor),
      let e' := snd (SavedModelTF2Predictor.restore fuel e) in
      (count_events is_poll (log e') <= count_events is_poll (log e) + 1)%nat /\
      (count_events is_wait (log e') <= count_events is_wait (log e))%nat) /\
  (forall fuel (e : Env SavedModelTF1Predictor.Predictor),
      let e' := snd (SavedModelTF1Predictor.restore fuel e) in
      (count_events is_poll (log e') <= count_events is_poll (log e) + 1)%nat /\
      (count_events is_wait (log e') <= count_events is_wait (log e))%nat).
Proof.
  split; intros fuel e; cbv zeta.
  - destruct (SavedModelTF2Predictor.restore fuel e) as [o e'] eqn:E. cbn [snd]. split.
    + refine (adds_restore is_poll SavedModelTF2Predictor.base
                SavedModelTF2Predictor.with_base _ _ fuel 1 _ e o e' E);
        try reflexivity; try (intros; cbn; lia).
    + pose proof (adds_restore is_wait SavedModelTF2Predictor.base
                    SavedModelTF2Predictor.with_base (fun _ => eq_refl)
                    (fun _ _ => eq_refl) fuel 0
                    (fun _ _ => le_n 0) e o e' E) as H. lia.
  - destruct (SavedModelTF1Predictor.restore fuel e) as [o e'] eqn:E. cbn [snd]. split.
    + refine (adds_graph_mode_restore is_poll _ _ fuel 1 0 _ _ e o e' E);
        try reflexivity; intros; cbn; lia.
    + pose proof (adds_graph_mode_restore is_wait (fun _ => eq_refl)
                    (fun _ _ => eq_refl) fuel 0 0
                    (fun _ _ => le_n 0) (fun _ _ => le_n 0) e o e' E) as H. lia.
Qed.

(** X4.  In graph mode the model is run on the placeholders when the
    predictor is restored and never again: [predict] of the graph-mode
    predictor adds no call of [model.predict] to the log, its [restore]
    at most one; each [predict] of the eager-mode predictor adds at
    most one. *)
Theorem model_is_called_at_most_once `{RT : Runtime} :
  (forall features (e : Env SavedModelTF1Predictor.Predictor),
      (count_events is_model_predict
         (log (snd (SavedModelTF1Predictor.predict features e)))
       <= count_events is_model_predict (log e))%nat) /\
  (forall fuel (e : Env SavedModelTF1Predictor.Predictor),
      (count_events is_model_predict (log (snd (SavedModelTF1Predictor.restore fuel e)))
       <= count_events is_model_predict (log e) + 1)%nat) /\
  (forall features (e : Env SavedModelTF2Predictor.Predictor),
      (count_events is_model_predict
         (log (snd (SavedModelTF2Predictor.predict features e)))
       <= count_events is_model_predict (log e) + 1)%nat).
Proof.
  split; [|split].
  - intros features e.
    destruct (SavedModelTF1Predictor.predict features e) as [o e'] eqn:E. cbn [snd].
    pose proof (adds_graph_mode_predict is_model_predict (fun _ => eq_refl) features 0
                  (fun _ _ => le_n 0) e o e' E) as H. lia.
  - intros fuel e.
    destruct (SavedModelTF1Predictor.restore fuel e) as [o e'] eqn:E. cbn [snd].
    refine (adds_graph_mode_restore is_model_predict _ _ fuel 0 1 _ _ e o e' E);
      try reflexivity; intros; cbn; lia.
  - intros features e.
    destruct (SavedModelTF2Predictor.predict features e) as [o e'] eqn:E. cbn [snd].
    refine (adds_bind_r is_model_predict _ _ 1 _ _ e o e' E).
    + apply adds_predict. intros m f. cbn. lia.
    + intros a. apply adds_ret.
Qed.

(** ** [restore] step by step *)

Section RestoreSteps.
Context `{RT : Runtime} {S : Type}.
Context (base : S -> SavedModelPredictorBase.Predictor).
Context (with_base : SavedModelPredictorBase.Predictor -> S -> S).
Hypothesis base_with_base : forall p o, base (with_base p o) = p.
Hypothesis with_base_twice : forall p q o, with_base p (with_base q o) = with_base p o.

Lemma restore_loads_env fuel (e : Env S) fp lp fs ls m rt1 rt2 rt3 rt4 :
  (first_elapsed e < SavedModelPredictorBase._timeout (base (self e)))%Q ->
  marker_at_first_poll base e = true ->
  load_t2r_assets_to_file (marker_file (base (self e))) (runtime (world e))
    = (Gives (fp, lp), rt1) ->
  from_proto fp rt1 = (Gives fs, rt2) ->
  from_proto lp rt2 = (Gives ls, rt3) ->
  saved_model_load (SavedModelPredictorBase._saved_model_path (base (self e))) rt3
    = (Gives m, rt4) ->
  SavedModelPredictorBase.restore base with_base (Datatypes.S fuel) e =
  (Returns true,
   mkEnv
     (with_base
        (SavedModelPredictorBase.mkPredictor
           (SavedModelPredictorBase._saved_model_path (base (self e)))
           (SavedModelPredictorBase._timeout (base (self e)))
           (Some m) (Some fs) (Some ls))
        (self e))
     (mkWorld (clock (world e)) (2 + clock_reads (world e))
              (gfile (world e)) (1 + gfile_queries (world e)) rt4)
     (Called "tf.saved_model.load"
      :: Called "TensorSpecStruct.from_proto"
      :: Called "TensorSpecStruct.from_proto"
      :: Called "tensorspec_utils.load_t2r_assets_to_file"
      :: GfileExists (marker_file (base (self e))) true
      :: log e)).
Proof.
  intros Ht Hmark Hload Hfs Hls Hm. apply Qltb_true in Ht.
  unfold SavedModelPredictorBase.restore.
  unfold bind at 1. unfold SavedModelPredictorBase.attr at 1, bind at 1, get_self, ret.
  unfold bind at 1. cbn [time_time].
  unfold bind at 1. rewrite wait_for_assets_round.
  cbn [world self clock clock_reads gfile gfile_queries].
  unfold first_elapsed in Ht. rewrite Ht.
  unfold marker_at_first_poll, marker_file in Hmark. rewrite Hmark.
  unfold marker_file in *.
  unfold SavedModelPredictorBase.assign, SavedModelPredictorBase.attr, bind, call,
    get_self, set_self, ret, asked, read_clock. cbn - [posixpath.join_step].
  unfold posixpath.join in Hload. cbn [fold_left] in Hload. rewrite Hload.
  cbn - [posixpath.join_step].
  rewrite Hfs. cbn - [posixpath.join_step]. rewrite Hls. cbn - [posixpath.join_step].
  rewrite !base_with_base. cbn - [posixpath.join_step].
  rewrite Hm. cbn - [posixpath.join_step].
  rewrite !base_with_base, !with_base_twice.
  unfold posixpath.join in Hmark. cbn [fold_left] in Hmark. rewrite Hmark.
  reflexivity.
Qed.

(** The label specification cannot be read: the feature specification
    is already assigned when the exception leaves [restore]. *)
Lemma restore_label_failure_env fuel (e : Env S) fp lp fs x rt1 rt2 rt3 :
  (first_elapsed e < SavedModelPredictorBase._timeout (base (self e)))%Q ->
  marker_at_first_poll base e = true ->
  load_t2r_assets_to_file (marker_file (base (self e))) (runtime (world e))
    = (Gives (fp, lp), rt1) ->
  from_proto fp rt1 = (Gives fs, rt2) ->
  from_proto lp rt2 = (Throws x, rt3) ->
  SavedModelPredictorBase.restore base with_base (Datatypes.S fuel) e =
  (Raises x,
   mkEnv
     (with_base (SavedModelPredictorBase.set_feature_spec fs (base (self e))) (self e))
     (mkWorld (clock (world e)) (2 + clock_reads (world e))
              (gfile (world e)) (1 + gfile_queries (world e)) rt3)
     (Called "TensorSpecStruct.from_proto"
      :: Called "TensorSpecStruct.from_proto"
      :: Called "tensorspec_utils.load_t2r_assets_to_file"
      :: GfileExists (marker_file (base (self e))) true
      :: log e)).
Proof.
  intros Ht Hmark Hload Hfs Hls. apply Qltb_true in Ht.
  unfold SavedModelPredictorBase.restore.
  unfold bind at 1. unfold SavedModelPredictorBase.attr at 1, bind at 1, get_self, ret.
  unfold bind at 1. cbn [time_time].
  unfold bind at 1. rewrite wait_for_assets_round.
  cbn [world self clock clock_reads gfile gfile_queries].
  unfold first_elapsed in Ht. rewrite Ht.
  unfold marker_at_first_poll, marker_file in Hmark. rewrite Hmark.
  unfold marker_file in *.
  unfold SavedModelPredictorBase.assign, SavedModelPredictorBase.attr, bind, call,
    get_self, set_self, ret, asked, read_clock. cbn - [posixpath.join_step].
  unfold posixpath.join in Hload. cbn [fold_left] in Hload. rewrite Hload.
  cbn - [posixpath.join_step].
  rewrite Hfs. cbn - [posixpath.join_step]. rewrite Hls.
  unfold posixpath.join in Hmark. cbn [fold_left] in Hmark. rewrite Hmark.
  reflexivity.
Qed.

End RestoreSteps.

(** X5.  [restore] is not atomic.  When the marker file is found, the
    assets file and the feature specification are read, and reading the
    label specification raises, the eager-mode [restore] raises that
    exception with [_feature_spec] already set to the new specification
    while [_label_spec] and [_model] are what they were; a predictor
    that was not loaded still refuses [get_feature_specification]. *)
Theorem restore_is_not_atomic `{RT : Runtime} :
  forall fuel (e : Env SavedModelTF2Predictor.Predictor) fp lp fs x rt1 rt2 rt3,
    (first_elapsed e < SavedModelPredictorBase._timeout (self e))%Q ->
    marker_at_first_poll SavedModelTF2Predictor.base e = true ->
    load_t2r_assets_to_file (marker_file (self e)) (runtime (world e))
      = (Gives (fp, lp), rt1) ->
    from_proto fp rt1 = (Gives fs, rt2) ->
    from_proto lp rt2 = (Throws x, rt3) ->
    let r := SavedModelTF2Predictor.restore (Datatypes.S fuel) e in
    fst r = Raises x /\
    SavedModelPredictorBase._feature_spec (self (snd r)) = Some fs /\
    SavedModelPredictorBase._label_spec (self (snd r))
      = SavedModelPredictorBase._label_spec (self e) /\
    SavedModelPredictorBase._model (self (snd r))
      = SavedModelPredictorBase._model (self e) /\
    (SavedModelPredictorBase._model (self e) = None ->
     fails_unrestored SavedModelTF2Predictor.get_feature_specification (snd r)).
Proof.
  intros fuel e fp lp fs x rt1 rt2 rt3 Ht Hmark Hload Hfs Hls r.
  unfold r, SavedModelTF2Predictor.restore.
  rewrite (restore_label_failure_env SavedModelTF2Predictor.base
             SavedModelTF2Predictor.with_base fuel e fp lp fs x rt1 rt2 rt3
             Ht Hmark Hload Hfs Hls).
  cbn [fst snd self]. repeat split.
  intros Hm. apply guarded_unloaded. exact Hm.
Qed.

Lemma restore_is_not_atomic_witness :
  let r := SavedModelTF2Predictor.restore (RT := faulty.runtime false true) 1
             (faulty.start false true (faulty.fresh false true)) in
  fst r = Raises (RuntimeFailure "cannot parse the label specification") /\
  SavedModelPredictorBase._feature_spec (self (snd r)) = Some echo.feature_spec.
Proof.
  destruct (restore_is_not_atomic (RT := faulty.runtime false true) 0%nat
              (faulty.start false true (faulty.fresh false true))
              echo.feature_spec echo.label_spec echo.feature_spec
              (RuntimeFailure "cannot parse the label specification") tt tt tt
              ltac:(vm_compute; reflexivity) eq_refl eq_refl
              ltac:(vm_compute; reflexivity) ltac:(vm_compute; reflexivity))
    as (H1 & H2 & _).
  split; [exact H1 | exact H2].
Defined.

(** X6.  What [restore] loads is what the predictor then answers with.
    When the marker file is found by the first poll and the runtime
    reads the assets, both specifications and the model, the eager-mode
    [restore] returns [True]; after it [get_feature_specification] and
    [get_label_specification] return the specifications just read,
    [model_path] returns the path the predictor was built with, and
    [predict] calls the model just loaded on the features mapped
    through the specification just read. *)
Theorem restore_then_use `{RT : Runtime} :
  forall fuel (e : Env SavedModelTF2Predictor.Predictor) fp lp fs ls m rt1 rt2 rt3 rt4,
    (first_elapsed e < SavedModelPredictorBase._timeout (self e))%Q ->
    marker_at_first_poll SavedModelTF2Predictor.base e = true ->
    load_t2r_assets_to_file (marker_file (self e)) (runtime (world e))
      = (Gives (fp, lp), rt1) ->
    from_proto fp rt1 = (Gives fs, rt2) ->
    from_proto lp rt2 = (Gives ls, rt3) ->
    saved_model_load (SavedModelPredictorBase._saved_model_path (self e)) rt3
      = (Gives m, rt4) ->
    let r := SavedModelTF2Predictor.restore (Datatypes.S fuel) e in
    fst r = Returns true /\
    SavedModelTF2Predictor.get_feature_specification (snd r) = (Returns (Some fs), snd r) /\
    SavedModelTF2Predictor.get_label_specification (snd r) = (Returns (Some ls), snd r) /\
    SavedModelTF2Predictor.model_path (snd r)
      = (Returns (SavedModelPredictorBase._saved_model_path (self e)), snd r) /\
    (forall features, dom features = dom fs ->
       let expanded :=
         map_zip_with SavedModelPredictorBase._maybe_expand_dims features fs in
       SavedModelTF2Predictor.predict features (snd r)
       = bind (call (ModelPredict m expanded) (model_predict m expanded))
              (fun predictions => ret (numpy <$> predictions)) (snd r)).
Proof.
  intros fuel e fp lp fs ls m rt1 rt2 rt3 rt4 Ht Hmark Hload Hfs Hls Hm r.
  unfold r, SavedModelTF2Predictor.restore.
  rewrite (restore_loads_env SavedModelTF2Predictor.base
             SavedModelTF2Predictor.with_base (fun _ _ => eq_refl)
             (fun _ _ _ => eq_refl) fuel e fp lp fs ls m rt1 rt2 rt3 rt4
             Ht Hmark Hload Hfs Hls Hm).
  cbn [fst snd]. split; [reflexivity|]. split; [reflexivity|].
  split; [reflexivity|]. split; [reflexivity|].
  intros features Hd.
  unfold SavedModelTF2Predictor.predict. unfold bind at 1.
  match goal with
  | |- context [SavedModelPredictorBase.predict _ features ?env] =>
      rewrite (predict_loaded SavedModelTF2Predictor.base features env m fs
                 eq_refl eq_refl Hd)
  end.
  reflexivity.
Qed.

Lemma restore_then_use_witness :
  let r := SavedModelTF2Predictor.restore (RT := echo.runtime) 1
             (echo.start echo.fresh echo.world_with_marker) in
  fst r = Returns true /\
  SavedModelTF2Predictor.get_feature_specification (snd r)
  = (Returns (Some echo.feature_spec), snd r).
Proof.
  destruct (restore_then_use (RT := echo.runtime) 0%nat
              (echo.start echo.fresh echo.world_with_marker)
              echo.feature_spec echo.label_spec echo.feature_spec echo.label_spec
              echo.path tt tt tt tt
              ltac:(vm_compute; reflexivity) eq_refl eq_refl eq_refl eq_refl eq_refl)
    as (H1 & H2 & _).
  split; [exact H1 | exact H2].
Defined.

(** X7.  A graph-mode [restore] that comes to its end (it returns
    [None]) has built the graph [predict] runs: the placeholders, the
    prediction tensors and the model are all set, and [predict] then
    feeds these placeholders and fetches these predictions in the
    session, inside the default session and graph. *)
Theorem graph_mode_restore_builds_graph `{RT : Runtime} :
  forall fuel (e e' : Env SavedModelTF1Predictor.Predictor),
    SavedModelTF1Predictor.restore fuel e = (Returns None, e') ->
    exists placeholders predictions m,
      SavedModelTF1Predictor._features (self e') = Some placeholders /\
      SavedModelTF1Predictor._predictions (self e') = Some predictions /\
      SavedModelPredictorBase._model (SavedModelTF1Predictor.base (self e')) = Some m /\
      forall features,
        SavedModelTF1Predictor.predict features e' =
        SavedModelTF1Predictor.with_default_session_and_graph
          (let* feed := call (MapFeedDict (Some placeholders) features)
                             (map_feed_dict (Some placeholders) features) in
           call (Called "session.run")
                (session_run_fetches (SavedModelTF1Predictor._session (self e'))
                                     (Some predictions) feed)) e'.
Proof.
  intros fuel e e'. unfold SavedModelTF1Predictor.restore.
  rewrite with_default_session_and_graph_runs.
  match goal with |- context [fst (?b ?x)] => destruct (b x) as [o e2] eqn:Hb end.
  cbn [fst snd]. intros H. injection H as -> <-.
  invert_bind Hb. destruct a; cbn [negb] in Hb;
    [|unfold ret in Hb; discriminate].
  apply (restore_true_populates _ _ graph_mode_base_with_base) in Hstep
    as (m & fs & ls & Hm & _ & _).
  do 10 invert_bind Hb. unfold ret in Hb. injection Hb as <-.
  match goal with
  | Hf : set_self (SavedModelTF1Predictor.set_features ?ph) _ = _,
    Hp : set_self (SavedModelTF1Predictor.set_predictions ?pr) _ = _ |- _ =>
      exists ph, pr, m
  end.
  repeat match goal with
    | Hc : call _ _ _ = _ |- _ => apply keeps_self_call in Hc
    | Hs : set_self _ _ = _ |- _ => apply set_self_returns in Hs
    | Hg : get_self _ = _ |- _ => apply keeps_self_get in Hg
    | Ha : SavedModelPredictorBase.attr _ _ _ = _ |- _ => apply attr_returns in Ha as [_ ->]
    | Hp : SavedModelPredictorBase.predict _ _ _ = _ |- _ => apply keeps_self_predict in Hp
    end.
  match goal with
  | |- SavedModelTF1Predictor._features (self ?env) = Some ?ph /\
       SavedModelTF1Predictor._predictions _ = Some ?pr /\ _ =>
      set (E := env) in *; set (PH := ph) in *; set (PR := pr) in *
  end.
  assert (Hself : exists o,
             self E = SavedModelTF1Predictor.set_predictions PR
                        (SavedModelTF1Predictor.set_features PH o) /\
             SavedModelPredictorBase._model (SavedModelTF1Predictor.base o) = Some m).
  { eexists. split; [|exact Hm].
    unfold E, left, logged. cbn [emit snd self]. congruence. }
  destruct Hself as (o & Hself & Hmo).
  assert (Hf : SavedModelTF1Predictor._features (self E) = Some PH)
    by now rewrite Hself.
  assert (Hp : SavedModelTF1Predictor._predictions (self E) = Some PR)
    by now rewrite Hself.
  assert (Hl : SavedModelPredictorBase._model
                 (SavedModelTF1Predictor.base (self E)) = Some m)
    by now rewrite Hself.
  clearbody E.
  split; [exact Hf|]. split; [exact Hp|]. split; [exact Hl|].
  intros features. unfold SavedModelTF1Predictor.predict,
    SavedModelTF1Predictor.assert_is_loaded.
  rewrite (bind_returns _ _ _ _ _
             (assert_is_loaded_loaded SavedModelTF1Predictor.base E
                ltac:(rewrite Hl; discriminate))).
  rewrite !with_default_session_and_graph_runs.
  match goal with
  | |- (fst (?b1 ?x), _) = (fst (?b2 ?x), _) => assert (Hbody : b1 x = b2 x)
  end.
  { unfold bind at 1. unfold get_self at 1.
    change (self (entered E)) with (self E).
    now rewrite Hf, Hp. }
  now rewrite Hbody.
Qed.

Lemma graph_mode_restore_builds_graph_witness :
  exists placeholders,
    SavedModelTF1Predictor._features
      (self (snd (SavedModelTF1Predictor.restore (RT := echo.runtime) 1
                    (echo.start (echo.graph_mode echo.fresh) echo.world_with_marker))))
    = Some placeholders.
Proof.
  destruct (graph_mode_restore_builds_graph (RT := echo.runtime) 1%nat
              (echo.start (echo.graph_mode echo.fresh) echo.world_with_marker)
              (snd (SavedModelTF1Predictor.restore (RT := echo.runtime) 1
                      (echo.start (echo.graph_mode echo.fresh) echo.world_with_marker)))
              ltac:(vm_compute; reflexivity))
    as (ph & _ & _ & Hf & _).
  exists ph. exact Hf.
Defined.

Lemma call_throws `{RT : Runtime} {S A} ev (f : RtState -> Answer A * RtState)
    (e : Env S) x rt' :
  f (runtime (world e)) = (Throws x, rt') ->
  call ev f e =
  (Raises x,
   mkEnv (self e)
         (mkWorld (clock (world e)) (clock_reads (world e)) (gfile (world e))
                  (gfile_queries (world e)) rt')
         (ev :: log e)).
Proof. intros H. unfold call. now rewrite H. Qed.

(** X8.  A graph-mode [restore] can fail half way.  When the base
    [restore] succeeds and building the placeholders raises, [restore]
    raises that exception with [_model] already set and [_features]
    and [_predictions] as they were.  The predictor then passes
    [assert_is_loaded]: [close] returns, and [predict] no longer raises
    the not-restored error but runs the session on the placeholders and
    predictions of before the call ([None] on a new predictor). *)
Theorem graph_mode_restore_half_way `{RT : Runtime} :
  forall fuel (e : Env SavedModelTF1Predictor.Predictor)
         fp lp fs ls m x rt1 rt2 rt3 rt4 rt5,
    (first_elapsed e
     < SavedModelPredictorBase._timeout (SavedModelTF1Predictor.base (self e)))%Q ->
    marker_at_first_poll SavedModelTF1Predictor.base e = true ->
    load_t2r_assets_to_file (marker_file (SavedModelTF1Predictor.base (self e)))
                            (runtime (world e))
      = (Gives (fp, lp), rt1) ->
    from_proto fp rt1 = (Gives fs, rt2) ->
    from_proto lp rt2 = (Gives ls, rt3) ->
    saved_model_load
      (SavedModelPredictorBase._saved_model_path (SavedModelTF1Predictor.base (self e))) rt3
      = (Gives m, rt4) ->
    make_placeholders (Some fs) rt4 = (Throws x, rt5) ->
    let r := SavedModelTF1Predictor.restore (Datatypes.S fuel) e in
    fst r = Raises x /\
    SavedModelPredictorBase._model (SavedModelTF1Predictor.base (self (snd r))) = Some m /\
    SavedModelTF1Predictor._features (self (snd r))
      = SavedModelTF1Predictor._features (self e) /\
    SavedModelTF1Predictor._predictions (self (snd r))
      = SavedModelTF1Predictor._predictions (self e) /\
    SavedModelTF1Predictor.close (snd r) = (Returns tt, snd r) /\
    forall features,
      SavedModelTF1Predictor.predict features (snd r) =
      SavedModelTF1Predictor.with_default_session_and_graph
        (let* feed := call (MapFeedDict (SavedModelTF1Predictor._features (self e)) features)
                           (map_feed_dict (SavedModelTF1Predictor._features (self e))
                                          features) in
         call (Called "session.run")
              (session_run_fetches (SavedModelTF1Predictor._session (self e))
                                   (SavedModelTF1Predictor._predictions (self e)) feed))
        (snd r).
Proof.
  intros fuel e fp lp fs ls m x rt1 rt2 rt3 rt4 rt5 Ht Hmark Hload Hfs Hls Hm Hph r.
  assert (Hr : exists w l,
             r = (Raises x,
                  mkEnv (SavedModelTF1Predictor.with_base
                           (SavedModelPredictorBase.mkPredictor
                              (SavedModelPredictorBase._saved_model_path
                                 (SavedModelTF1Predictor.base (self e)))
                              (SavedModelPredictorBase._timeout
                                 (SavedModelTF1Predictor.base (self e)))
                              (Some m) (Some fs) (Some ls))
                           (self e)) w l)).
  { unfold r, SavedModelTF1Predictor.restore.
    rewrite with_default_session_and_graph_runs.
    rewrite (bind_returns _ _ _ _ _
               (restore_loads_env SavedModelTF1Predictor.base
                  SavedModelTF1Predictor.with_base (fun _ _ => eq_refl)
                  (fun _ _ _ => eq_refl) fuel (entered e) fp lp fs ls m rt1 rt2 rt3 rt4
                  Ht Hmark Hload Hfs Hls Hm)).
    cbn [negb].
    match goal with
    | |- context [bind (SavedModelPredictorBase.attr ?b ?f) ?k ?env] =>
        change (bind (SavedModelPredictorBase.attr b f) k env)
          with (k (f (b (self env))) env)
    end.
    cbn [self SavedModelTF1Predictor.base SavedModelTF1Predictor.with_base
         SavedModelPredictorBase._feature_spec].
    match goal with
    | |- context [bind (call ?ev ?f) ?k ?env] =>
        rewrite (bind_raises (call ev f) k env x _ (call_throws ev f env x rt5 Hph))
    end.
    unfold left, logged. cbn [emit snd fst self world log].
    eexists _, _. reflexivity. }
  destruct Hr as (w & l & Hr). rewrite Hr. cbn [fst snd self].
  split; [reflexivity|]. split; [reflexivity|]. split; [reflexivity|].
  split; [reflexivity|]. split.
  - apply close_loaded. cbn. discriminate.
  - intros features.
    unfold SavedModelTF1Predictor.predict, SavedModelTF1Predictor.assert_is_loaded.
    match goal with
    | |- bind _ _ ?env = _ =>
        rewrite (bind_returns _ _ _ _ _
                   (assert_is_loaded_loaded SavedModelTF1Predictor.base env
                      ltac:(cbn; discriminate)))
    end.
    rewrite !with_default_session_and_graph_runs. reflexivity.
Qed.

Lemma graph_mode_restore_half_way_witness :
  let r := SavedModelTF1Predictor.restore (RT := faulty.runtime true false) 1
             (faulty.start true false (faulty.graph_mode true false)) in
  fst r = Raises (RuntimeFailure "cannot build the placeholders") /\
  SavedModelTF1Predictor.close (snd r) = (Returns tt, snd r).
Proof.
  destruct (graph_mode_restore_half_way (RT := faulty.runtime true false) 0%nat
              (faulty.start true false (faulty.graph_mode true false))
              echo.feature_spec echo.label_spec echo.feature_spec echo.label_spec
              echo.path (RuntimeFailure "cannot build the placeholders")
              tt tt tt tt tt
              ltac:(vm_compute; reflexivity) eq_refl eq_refl
              ltac:(vm_compute; reflexivity) ltac:(vm_compute; reflexivity)
              eq_refl eq_refl)
    as (H1 & _ & _ & _ & H2 & _).
  split; [exact H1 | exact H2].
Defined.

(** ** More on [model_version] *)

Section MorePaths.
Local Open Scope Z_scope.

Lemma rfind_cons c r :
  posixpath.rfind (String c r) =
  if posixpath.rfind r <? 0
  then (if Ascii.eqb c posixpath.sep then 0 else -1)
  else 1 + posixpath.rfind r.
Proof.
  unfold posixpath.rfind at 1. cbn [posixpath.rfind_from].
  rewrite rfind_from_shift.
  destruct (posixpath.rfind r <? 0); [reflexivity | lia].
Qed.

Lemma rfind_negative_iff s : (posixpath.rfind s <? 0) = negb (has_sep s).
Proof.
  induction s as [|c r IH]; [reflexivity|].
  rewrite rfind_cons. cbn [has_sep].
  pose proof (rfind_from_lower r 0 (-1) ltac:(lia) ltac:(lia)) as Hlow.
  fold (posixpath.rfind r) in Hlow.
  destruct (posixpath.rfind r <? 0) eqn:E.
  - symmetry in IH. apply negb_true_iff in IH. rewrite IH.
    now destruct (Ascii.eqb c posixpath.sep).
  - symmetry in IH. apply negb_false_iff in IH. rewrite IH, orb_true_r.
    apply Z.ltb_ge in E. apply Z.ltb_ge. lia.
Qed.

Lemma append_cons c r b : String c r ++ b = String c (r ++ b).
Proof. reflexivity. Qed.

Lemma append_nil b : EmptyString ++ b = b.
Proof. reflexivity. Qed.

Lemma has_sep_app a b : has_sep (a ++ b) = (has_sep a || has_sep b)%bool.
Proof.
  induction a as [|c r IH]; [reflexivity|].
  rewrite append_cons. cbn [has_sep]. now rewrite IH, orb_assoc.
Qed.

(** The name after the last separator is the base name. *)
Lemma basename_after_sep a n :
  has_sep n = false -> posixpath.basename (a ++ String posixpath.sep n) = n.
Proof.
  intros Hn. induction a as [|c r IH].
  - rewrite append_nil. rewrite basename_cons, rfind_negative_iff, Hn. reflexivity.
  - rewrite append_cons. rewrite basename_cons, rfind_negative_iff, has_sep_app.
    cbn [has_sep]. rewrite Ascii.eqb_refl, orb_true_r. exact IH.
Qed.

Lemma endswith_sep_split s :
  posixpath.endswith_sep s = true -> exists a, s = a ++ String posixpath.sep EmptyString.
Proof.
  induction s as [|c r IH]; [discriminate|].
  destruct r as [|c' r'].
  - cbn. intros H. apply Ascii.eqb_eq in H. subst c. now exists EmptyString.
  - intros H. change (posixpath.endswith_sep (String c' r') = true) in H.
    destruct (IH H) as [a Ha]. exists (String c a). rewrite append_cons. now rewrite Ha.
Qed.

Lemma string_app_assoc (a b c : string) : (a ++ b) ++ c = a ++ (b ++ c).
Proof.
  induction a as [|x r IH]; [reflexivity|]. rewrite !append_cons. now rewrite IH.
Qed.

(** [basename] undoes [join]: joining a name without separator to any
    directory and taking the base name gives the name back. *)
Lemma basename_join dir name :
  has_sep name = false -> posixpath.basename (posixpath.join dir [name]) = name.
Proof.
  intros Hn. cbn [posixpath.join fold_left]. unfold posixpath.join_step.
  assert (Hs : posixpath.startswith_sep name = false).
  { destruct name as [|c r]; [reflexivity|]. cbn in Hn |- *.
    now apply orb_false_iff in Hn as [-> _]. }
  rewrite Hs.
  destruct (String.eqb dir "") eqn:Ed.
  - apply String.eqb_eq in Ed. subst dir. cbn [orb]. rewrite append_nil.
    apply basename_no_sep. now rewrite rfind_negative_iff, Hn.
  - cbn [orb]. destruct (posixpath.endswith_sep dir) eqn:Ee.
    + destruct (endswith_sep_split dir Ee) as [a ->].
      rewrite string_app_assoc, append_cons, append_nil.
      now apply basename_after_sep.
    + now apply basename_after_sep.
Qed.

Lemma all_digits_no_sep s : pathspec.all_digits s = true -> has_sep s = false.
Proof.
  induction s as [|c r IH]; [reflexivity|].
  cbn. intros H. apply andb_true_iff in H as [Hc Hr]. rewrite (IH Hr), orb_false_r.
  destruct (Ascii.eqb c posixpath.sep) eqn:E; [|reflexivity].
  apply Ascii.eqb_eq in E. subst c. discriminate.
Qed.

Lemma all_space_numeric s : pyint.all_space s = true -> all_numeric s = true.
Proof.
  induction s as [|c r IH]; [reflexivity|].
  cbn. intros H. apply andb_true_iff in H as [Hc Hr].
  unfold numeric_char. rewrite Hc, (IH Hr). now rewrite orb_true_r.
Qed.

Lemma digits_all_numeric s : forall acc prev v,
  pyint.digits s acc prev = Some v -> all_numeric s = true.
Proof.
  induction s as [|c r IH]; intros acc prev v H; [reflexivity|].
  cbn [pyint.digits] in H. cbn [all_numeric].
  destruct (pyint.is_digit c) eqn:Ed.
  - unfold numeric_char. rewrite Ed. cbn. exact (IH _ _ _ H).
  - destruct (Ascii.eqb c "_"%char) eqn:Eu.
    + destruct prev; [|discriminate].
      unfold numeric_char. rewrite Eu, (IH _ _ _ H). now rewrite !orb_true_r.
    + destruct (prev && pyint.all_space (String c r))%bool eqn:Ea; [|discriminate].
      apply andb_true_iff in Ea as [_ Ha].
      exact (all_space_numeric (String c r) Ha).
Qed.

Lemma lstrip_all_numeric s : all_numeric (pyint.lstrip s) = true -> all_numeric s = true.
Proof.
  induction s as [|c r IH]; [reflexivity|].
  cbn [pyint.lstrip]. destruct (pyint.is_space c) eqn:Es; [|trivial].
  intros H. cbn [all_numeric]. unfold numeric_char.
  rewrite Es, (IH H). now rewrite !orb_true_r.
Qed.

(** [int] accepts digits, white space, underscores and signs only. *)
Lemma int_all_numeric s v : pyint.int s = Some v -> all_numeric s = true.
Proof.
  unfold pyint.int. intros H. apply lstrip_all_numeric.
  destruct (pyint.lstrip s) as [|c r]; [discriminate|].
  cbn [all_numeric].
  destruct (Ascii.eqb c "-"%char) eqn:Em.
  - destruct (pyint.digits r 0 false) as [v'|] eqn:Ed; [|discriminate].
    unfold numeric_char. rewrite Em, (digits_all_numeric _ _ _ _ Ed).
    now rewrite !orb_true_r.
  - destruct (Ascii.eqb c "+"%char) eqn:Ep.
    + unfold numeric_char. rewrite Ep, (digits_all_numeric _ _ _ _ H).
      now rewrite !orb_true_r.
    + exact (digits_all_numeric _ _ _ _ H).
Qed.

End MorePaths.

(** X9.  [os.path.basename] undoes [os.path.join]: for a name without
    separator, the base name of the directory joined with the name is
    the name.  So a loaded predictor whose path is a directory joined
    with a version written in decimal digits, at most [MAX_STR_DIGITS]
    of them, has that number as its [model_version], whatever the
    directory. *)
Theorem model_version_of_versioned_export `{RT : Runtime} :
  (forall dir name,
      has_sep name = false ->
      posixpath.basename (posixpath.join dir [name]) = name) /\
  (forall S (base : S -> SavedModelPredictorBase.Predictor) (e : Env S) dir name,
      SavedModelPredictorBase._model (base (self e)) <> None ->
      SavedModelPredictorBase._saved_model_path (base (self e)) = posixpath.join dir [name] ->
      pathspec.all_digits name = true ->
      name <> EmptyString ->
      (intspec.digit_count name <= intspec.MAX_STR_DIGITS)%nat ->
      SavedModelPredictorBase.model_version base e
      = (Returns (pathspec.decimal 0 name), e)).
Proof.
  split; [exact basename_join|].
  intros S base e dir name Hm Hpath Hd Hne _.
  unfold SavedModelPredictorBase.model_version.
  rewrite (bind_returns _ _ _ _ _ (assert_is_loaded_loaded base e Hm)).
  unfold SavedModelPredictorBase.attr, bind, get_self, ret.
  rewrite Hpath, (basename_join dir name (all_digits_no_sep name Hd)).
  now rewrite (int_of_all_digits name Hd Hne).
Qed.

Lemma model_version_of_versioned_export_witness :
  SavedModelPredictorBase.model_version (RT := echo.runtime) SavedModelTF2Predictor.base
    (echo.start echo.loaded echo.world_with_marker)
  = (Returns 1589, echo.start echo.loaded echo.world_with_marker).
Proof.
  refine (proj2 (model_version_of_versioned_export (RT := echo.runtime)) _
            SavedModelTF2Predictor.base (echo.start echo.loaded echo.world_with_marker)
            "/tmp/export" "1589" _ _ _ _ _).
  - cbn. discriminate.
  - reflexivity.
  - reflexivity.
  - discriminate.
  - apply Nat.leb_le. vm_compute. reflexivity.
Defined.

(** X10.  A saved-model path that ends with a separator has an empty
    base name, so [model_version] of a loaded predictor with such a
    path raises [ValueError], even when the directory is named by a
    number; the predictor is left as it was. *)
Theorem model_version_trailing_separator `{RT : Runtime} :
  forall S (base : S -> SavedModelPredictorBase.Predictor) (e : Env S) dir,
    SavedModelPredictorBase._model (base (self e)) <> None ->
    SavedModelPredictorBase._saved_model_path (base (self e))
      = dir ++ String posixpath.sep EmptyString ->
    SavedModelPredictorBase.model_version base e
    = (Raises (ValueError "invalid literal for int() with base 10"), e).
Proof.
  intros S base e dir Hm Hpath.
  unfold SavedModelPredictorBase.model_version.
  rewrite (bind_returns _ _ _ _ _ (assert_is_loaded_loaded base e Hm)).
  unfold SavedModelPredictorBase.attr, bind, get_self, ret, raise.
  rewrite Hpath, (basename_after_sep dir EmptyString eq_refl).
  reflexivity.
Qed.

Lemma model_version_trailing_separator_witness :
  let e := mkEnv (RT := echo.runtime)
             (SavedModelPredictorBase.mkPredictor (RT := echo.runtime)
                "/tmp/export/1589/" 600%Q (Some echo.path)
                (Some echo.feature_spec) (Some echo.label_spec))
             echo.world_with_marker [] in
  SavedModelPredictorBase.model_version (RT := echo.runtime) SavedModelTF2Predictor.base e
  = (Raises (ValueError "invalid literal for int() with base 10"), e).
Proof.
  refine (model_version_trailing_separator (RT := echo.runtime) _
            SavedModelTF2Predictor.base _ "/tmp/export/1589" _ _).
  - cbn. discriminate.
  - reflexivity.
Defined.

(** X11.  An integer literal is made of decimal digits, white space,
    underscores and signs only.  So [model_version] of a loaded
    predictor raises [ValueError] whenever the base name of the path is
    ASCII and holds any other character, a letter for instance. *)
Theorem model_version_rejects_names `{RT : Runtime} :
  (forall s v, intspec.literal s v -> all_numeric s = true) /\
  (forall S (base : S -> SavedModelPredictorBase.Predictor) (e : Env S),
      SavedModelPredictorBase._model (base (self e)) <> None ->
      intspec.ascii_string
        (posixpath.basename (SavedModelPredictorBase._saved_model_path (base (self e))))
      = true ->
      all_numeric
        (posixpath.basename (SavedModelPredictorBase._saved_model_path (base (self e))))
      = false ->
      SavedModelPredictorBase.model_version base e
      = (Raises (ValueError "invalid literal for int() with base 10"), e)).
Proof.
  split.
  { intros s v Hl. apply int_literal in Hl. exact (int_all_numeric s v Hl). }
  intros S base e Hm _ Hn.
  unfold SavedModelPredictorBase.model_version.
  rewrite (bind_returns _ _ _ _ _ (assert_is_loaded_loaded base e Hm)).
  unfold SavedModelPredictorBase.attr, bind, get_self, ret, raise.
  destruct (pyint.int _) as [v|] eqn:E; [|reflexivity].
  apply int_all_numeric in E. congruence.
Qed.

Lemma model_version_rejects_names_witness :
  let e := mkEnv (RT := echo.runtime)
             (SavedModelPredictorBase.mkPredictor (RT := echo.runtime)
                "/tmp/export/latest" 600%Q (Some echo.path)
                (Some echo.feature_spec) (Some echo.label_spec))
             echo.world_with_marker [] in
  SavedModelPredictorBase.model_version (RT := echo.runtime) SavedModelTF2Predictor.base e
  = (Raises (ValueError "invalid literal for int() with base 10"), e).
Proof.
  refine (proj2 (model_version_rejects_names (RT := echo.runtime)) _
            SavedModelTF2Predictor.base _ _ _ _).
  - cbn. discriminate.
  - reflexivity.
  - reflexivity.
Defined.

(** ** More on [predict] *)

Section Expansion.
Context `{RT : Runtime}.

Lemma cons_differs {A} (x : A) (l : list A) : x :: l <> l.
Proof. intros H. apply (f_equal length) in H. cbn in H. lia. Qed.

(** A tensor that has a batch dimension in front of the shape of its
    specification is not expanded, whatever the batch size. *)
Lemma maybe_expand_dims_batched (f : Tensor Payload) s d :
  shape f = d :: spec_shape s ->
  SavedModelPredictorBase._maybe_expand_dims f s = f.
Proof.
  intros H. apply maybe_expand_dims_differs. rewrite H. apply cons_differs.
Qed.

Lemma maybe_expand_dims_idempotent (f : Tensor Payload) s :
  SavedModelPredictorBase._maybe_expand_dims
    (SavedModelPredictorBase._maybe_expand_dims f s) s
  = SavedModelPredictorBase._maybe_expand_dims f s.
Proof.
  destruct (decide (shape f = spec_shape s)) as [H | H].
  - rewrite (maybe_expand_dims_equal f s H).
    apply (maybe_expand_dims_batched _ s (Some 1%N)). cbn. now rewrite H.
  - now rewrite !(maybe_expand_dims_differs f s H).
Qed.

Lemma maybe_expand_dims_payload (f : Tensor Payload) s :
  payload (SavedModelPredictorBase._maybe_expand_dims f s) = payload f.
Proof.
  unfold SavedModelPredictorBase._maybe_expand_dims.
  now destruct (bool_decide _).
Qed.

Lemma expanded_idempotent (features : gmap string (Tensor Payload)) spec :
  map_zip_with SavedModelPredictorBase._maybe_expand_dims
    (map_zip_with SavedModelPredictorBase._maybe_expand_dims features spec) spec
  = map_zip_with SavedModelPredictorBase._maybe_expand_dims features spec.
Proof.
  apply map_eq. intros k. rewrite !map_lookup_zip_with.
  destruct (features !! k) as [f|]; [|reflexivity].
  destruct (spec !! k) as [s|]; [|reflexivity].
  cbn. now rewrite maybe_expand_dims_idempotent.
Qed.

Lemma expanded_dom (features : gmap string (Tensor Payload))
    (spec : gmap string TensorSpec) :
  dom features = dom spec ->
  dom (map_zip_with SavedModelPredictorBase._maybe_expand_dims features spec)
  = dom features.
Proof. intros Hd. rewrite dom_map_zip_with_L, <- Hd. apply (idemp_L (∩)). Qed.

Lemma expanded_unchanged (features : gmap string (Tensor Payload))
    (spec : gmap string TensorSpec) :
  dom features = dom spec ->
  (forall k f s, features !! k = Some f -> spec !! k = Some s ->
     exists d, shape f = d :: spec_shape s) ->
  map_zip_with SavedModelPredictorBase._maybe_expand_dims features spec = features.
Proof.
  intros Hd Hall. apply map_eq. intros k. rewrite map_lookup_zip_with.
  destruct (features !! k) as [f|] eqn:Ef; [|reflexivity].
  assert (Hk : k ∈ dom spec) by (rewrite <- Hd; apply elem_of_dom; eauto).
  apply elem_of_dom in Hk as [s Es]. rewrite Es. cbn.
  destruct (Hall k f s Ef Es) as [d Hshape].
  now rewrite (maybe_expand_dims_batched f s d Hshape).
Qed.

End Expansion.

(** X12.  The expansion done by [predict] is a normalisation: the
    mapping handed to the model has the keys of the features, each
    tensor in it carries the data it was given, and handing that
    mapping to [predict] again changes nothing more, so [predict] on
    the expanded features is [predict] on the features, for the base
    and for the eager-mode predictor. *)
Theorem predict_expansion_is_idempotent `{RT : Runtime} :
  forall (e : Env SavedModelTF2Predictor.Predictor) features spec m,
    SavedModelPredictorBase._model (self e) = Some m ->
    SavedModelPredictorBase._feature_spec (self e) = Some spec ->
    dom features = dom spec ->
    let expanded := map_zip_with SavedModelPredictorBase._maybe_expand_dims features spec in
    dom expanded = dom features /\
    (forall k f, features !! k = Some f ->
       exists f', expanded !! k = Some f' /\ payload f' = payload f) /\
    SavedModelPredictorBase.predict SavedModelTF2Predictor.base expanded e
      = SavedModelPredictorBase.predict SavedModelTF2Predictor.base features e /\
    SavedModelTF2Predictor.predict expanded e = SavedModelTF2Predictor.predict features e.
Proof.
  intros e features spec m Hm Hs Hd expanded.
  assert (Hdom : dom expanded = dom features) by now apply expanded_dom.
  assert (Hp : SavedModelPredictorBase.predict SavedModelTF2Predictor.base expanded e
               = SavedModelPredictorBase.predict SavedModelTF2Predictor.base features e).
  { rewrite (predict_loaded SavedModelTF2Predictor.base expanded e m spec Hm Hs
               ltac:(congruence)).
    rewrite (predict_loaded SavedModelTF2Predictor.base features e m spec Hm Hs Hd).
    cbv zeta. unfold expanded. now rewrite expanded_idempotent. }
  split; [exact Hdom|]. split; [|split; [exact Hp|]].
  - intros k f Hf.
    assert (Hk : k ∈ dom spec) by (rewrite <- Hd; apply elem_of_dom; eauto).
    apply elem_of_dom in Hk as [s Es].
    exists (SavedModelPredictorBase._maybe_expand_dims f s). split.
    + unfold expanded. now rewrite map_lookup_zip_with, Hf, Es.
    + apply maybe_expand_dims_payload.
  - unfold SavedModelTF2Predictor.predict, bind. now rewrite Hp.
Qed.

Lemma predict_expansion_is_idempotent_witness :
  SavedModelTF2Predictor.predict (RT := echo.runtime)
    (map_zip_with SavedModelPredictorBase._maybe_expand_dims
       echo.unbatched echo.feature_spec)
    (echo.start echo.loaded echo.world_with_marker)
  = SavedModelTF2Predictor.predict (RT := echo.runtime) echo.unbatched
      (echo.start echo.loaded echo.world_with_marker).
Proof.
  refine (proj2 (proj2 (proj2
            (predict_expansion_is_idempotent (RT := echo.runtime)
               (echo.start echo.loaded echo.world_with_marker)
               echo.unbatched echo.feature_spec echo.path eq_refl eq_refl _)))).
  vm_compute. reflexivity.
Defined.

(** X13.  A feature that already has a batch dimension, of any size,
    in front of the shape of its specification is never expanded; when
    every feature has one, [predict] of a loaded base or eager-mode
    predictor hands the model the features exactly as they were
    given. *)
Theorem batched_features_pass_unchanged `{RT : Runtime} :
  (forall (f : Tensor Payload) s d,
      shape f = d :: spec_shape s ->
      SavedModelPredictorBase._maybe_expand_dims f s = f) /\
  (forall (e : Env SavedModelTF2Predictor.Predictor) features spec m,
      SavedModelPredictorBase._model (self e) = Some m ->
      SavedModelPredictorBase._feature_spec (self e) = Some spec ->
      dom features = dom spec ->
      (forall k f s, features !! k = Some f -> spec !! k = Some s ->
         exists d, shape f = d :: spec_shape s) ->
      SavedModelPredictorBase.predict SavedModelTF2Predictor.base features e
        = call (ModelPredict m features) (model_predict m features) e /\
      SavedModelTF2Predictor.predict features e
        = bind (call (ModelPredict m features) (model_predict m features))
               (fun predictions => ret (numpy <$> predictions)) e).
Proof.
  split; [exact maybe_expand_dims_batched|].
  intros e features spec m Hm Hs Hd Hall.
  pose proof (predict_loaded SavedModelTF2Predictor.base features e m spec Hm Hs Hd)
    as Hp. cbv zeta in Hp. rewrite (expanded_unchanged features spec Hd Hall) in Hp.
  split; [exact Hp|].
  unfold SavedModelTF2Predictor.predict. unfold bind at 1. rewrite Hp. reflexivity.
Qed.

Lemma batched_features_pass_unchanged_witness :
  SavedModelPredictorBase.predict (RT := echo.runtime) SavedModelTF2Predictor.base
    echo.batched (echo.start echo.loaded echo.world_with_marker)
  = call (RT := echo.runtime) (ModelPredict (RT := echo.runtime) echo.path echo.batched)
      (model_predict (Runtime := echo.runtime) echo.path echo.batched)
      (echo.start echo.loaded echo.world_with_marker).
Proof.
  refine (proj1 (proj2 (batched_features_pass_unchanged (RT := echo.runtime))
                   (echo.start echo.loaded echo.world_with_marker)
                   echo.batched echo.feature_spec echo.path eq_refl eq_refl _ _)).
  - vm_compute. reflexivity.
  - intros k f s Hf Hs.
    destruct (decide (k = "x")) as [-> | Hne].
    + vm_compute in Hf, Hs. injection Hf as <-. injection Hs as <-.
      exists (Some 2%N). reflexivity.
    + unfold echo.batched in Hf. rewrite lookup_singleton_ne in Hf by congruence.
      discriminate.
Defined.

(** ** [global_step] in graph mode *)

(** X14.  [global_step] of the graph-mode predictor reads the base
    property, which already is the step the model returned, and then
    calls that value before running the result in the session.  On a
    loaded predictor: when the step value cannot be called, the
    exception of the call leaves [global_step] and the session is not
    run; when it can, [global_step] is the session run of what the call
    returned. *)
Theorem graph_mode_global_step_calls_the_step `{RT : Runtime} :
  forall (e : Env SavedModelTF1Predictor.Predictor) m t rt1,
    SavedModelPredictorBase._model (SavedModelTF1Predictor.base (self e)) = Some m ->
    model_global_step m (runtime (world e)) = (Gives t, rt1) ->
    let called rt2 :=
      mkEnv (self e)
            (mkWorld (clock (world e)) (clock_reads (world e)) (gfile (world e))
                     (gfile_queries (world e)) rt2)
            (Called "__call__" :: Called "model.global_step" :: log e) in
    (forall x rt2,
        call_value t rt1 = (Throws x, rt2) ->
        SavedModelTF1Predictor.global_step e = (Raises x, called rt2)) /\
    (forall t' rt2,
        call_value t rt1 = (Gives t', rt2) ->
        SavedModelTF1Predictor.global_step e
        = call (Called "session.run")
               (session_run_tensor (SavedModelTF1Predictor._session (self e)) t')
               (called rt2)).
Proof.
  intros e m t rt1 Hm Hstep called.
  assert (Hl : SavedModelPredictorBase._model (SavedModelTF1Predictor.base (self e)) <> None)
    by (rewrite Hm; discriminate).
  assert (Hbase : SavedModelPredictorBase.global_step SavedModelTF1Predictor.base e
                  = (Returns t,
                     mkEnv (self e)
                           (mkWorld (clock (world e)) (clock_reads (world e))
                                    (gfile (world e)) (gfile_queries (world e)) rt1)
                           (Called "model.global_step" :: log e))).
  { unfold SavedModelPredictorBase.global_step.
    rewrite (bind_returns _ _ _ _ _
               (assert_is_loaded_loaded SavedModelTF1Predictor.base e Hl)).
    unfold bind, SavedModelPredictorBase.attr, bind, get_self, ret.
    rewrite Hm. unfold call. now rewrite Hstep. }
  split.
  - intros x rt2 Hcall.
    unfold SavedModelTF1Predictor.global_step, SavedModelTF1Predictor.assert_is_loaded.
    rewrite (bind_returns _ _ _ _ _
               (assert_is_loaded_loaded SavedModelTF1Predictor.base e Hl)).
    unfold bind at 1. unfold get_self at 1.
    unfold bind at 1. rewrite Hbase.
    unfold bind, call. cbn [world runtime]. now rewrite Hcall.
  - intros t' rt2 Hcall.
    unfold SavedModelTF1Predictor.global_step, SavedModelTF1Predictor.assert_is_loaded.
    rewrite (bind_returns _ _ _ _ _
               (assert_is_loaded_loaded SavedModelTF1Predictor.base e Hl)).
    unfold bind at 1. unfold get_self at 1.
    unfold bind at 1. rewrite Hbase.
    unfold bind at 1. unfold call at 1. cbn [world runtime]. now rewrite Hcall.
Qed.

Lemma graph_mode_global_step_calls_the_step_witness :
  fst (SavedModelTF1Predictor.global_step (RT := echo.runtime)
         (echo.start echo.graph_mode_loaded echo.world_with_marker))
  = Raises (TypeError "object is not callable").
Proof.
  rewrite (proj1 (graph_mode_global_step_calls_the_step (RT := echo.runtime)
                    (echo.start echo.graph_mode_loaded echo.world_with_marker)
                    echo.path (mkTensor [] [0]) tt eq_refl eq_refl)
             (TypeError "object is not callable") tt eq_refl).
  reflexivity.
Defined.

(** * When [close] raises, and a clock that is set back *)




(** C9, as stated, fails when the wall clock is set back between the
    two readings [restore] starts with: with a timeout of zero and
    readings 10 and then 5, the time elapsed is below the timeout, the
    marker file is asked for once, and [restore] loads the export and
    returns [True]. *)
Lemma restore_zero_timeout_polls_after_clock_step :
  let e := mkEnv (RT := echo.runtime) echo.impatient skew.world [] in
  let r := SavedModelTF2Predictor.restore (RT := echo.runtime) 1 e in
  (SavedModelPredictorBase._timeout (self e) <= 0)%Q /\
  fst r = Returns true /\
  gfile_queries (world (snd r)) = 1%nat /\
  polls (log (snd r)) = 1%nat.
Proof.
  cbv zeta. split; [vm_compute; discriminate|].
  vm_compute. repeat split.
Qed.
